(** * logzai-otlp: the LogzAI facade of [src/logzai_otlp/main.py]

    A shallow embedding of the facade class [LogzAI] (and its base
    [LogzAIBase]) together with the properties its specification states.

    Python strings are modelled as [string] (a list of 8-bit characters,
    read as the UTF-8 encoding of the text).  The two string operations the
    facade uses, [rstrip('/')] and [lower() == "grpc"], only ever inspect
    ASCII characters: no byte of a multi-byte UTF-8 sequence equals ['/'],
    and no non-ASCII character lowercases to one of [g], [r], [p], [c]. *)

From Stdlib Require Import ZArith Ascii String Lia.
From stdpp Require Import base tactics option list strings gmap gmultiset.

Open Scope string_scope.

(** ** Python strings *)

(** [s.rstrip(chars)]: drop the longest suffix made of characters of
    [chars]. *)
Fixpoint rstrip (chars : list ascii) (s : string) : string :=
  match s with
  | EmptyString => EmptyString
  | String a s' =>
      match rstrip chars s' with
      | EmptyString =>
          if bool_decide (a ∈ chars) then EmptyString else String a EmptyString
      | String b r => String a (String b r)
      end
  end.

Definition slash : ascii := "/"%char.

(** [c.lower()] on one character: only [A]..[Z] change. *)
Definition lower_ascii (c : ascii) : ascii :=
  let n := nat_of_ascii c in
  if (65 <=? n)%nat && (n <=? 90)%nat then ascii_of_nat (n + 32) else c.

(** [s.lower()]. *)
Fixpoint lower (s : string) : string :=
  match s with
  | EmptyString => EmptyString
  | String a s' => String (lower_ascii a) (lower s')
  end.

(** [k] copies of ['/']. *)
Fixpoint slashes (k : nat) : string :=
  match k with
  | O => EmptyString
  | S k' => String slash (slashes k')
  end.

(** The last character of [s] is ['/']. *)
Fixpoint ends_with_slash (s : string) : bool :=
  match s with
  | EmptyString => false
  | String a EmptyString => bool_decide (a = slash)
  | String _ s' => ends_with_slash s'
  end.

(** ** Exporters (external collaborators, recorded by their arguments) *)

(** Which OTLP exporter module the import statement selects. *)
Inductive Transport := GRPC | HTTP.

(** Which of the two signals the exporter class belongs to. *)
Inductive Signal := Logs | Traces.

(** An [OTLPLogExporter] / [OTLPSpanExporter] instance, recorded by the
    class that was imported and the keyword arguments of its constructor. *)
Record Exporter := mkExporter {
  exp_transport : Transport;
  exp_signal : Signal;
  exp_endpoint : string;
  exp_headers : list (string * string)
}.

Global Instance Transport_eq_dec : EqDecision Transport.
Proof. solve_decision. Defined.

(** A Python [dict] with string keys and string values, in insertion
    order; [headers.items()] is the list itself. *)
Definition StrDict := list (string * string).

(** [d[k] = v]: overwrite in place when the key exists, append otherwise. *)
Fixpoint dict_set (d : StrDict) (k v : string) : StrDict :=
  match d with
  | [] => [(k, v)]
  | (k', v') :: d' =>
      if bool_decide (k' = k) then (k, v) :: d' else (k', v') :: dict_set d' k v
  end.

(** [LogzAIBase._make_log_exporter] *)
Definition _make_log_exporter
    (endpoint : string) (headers : StrDict) (protocol : string) : Exporter :=
  let log_url := rstrip [slash] endpoint +:+ "/logs" in
  if bool_decide (lower protocol = "grpc")
  then mkExporter GRPC Logs log_url headers
  else mkExporter HTTP Logs log_url headers.

(** [LogzAIBase._make_trace_exporter] *)
Definition _make_trace_exporter
    (endpoint : string) (headers : StrDict) (protocol : string) : Exporter :=
  let trace_url := rstrip [slash] endpoint +:+ "/traces" in
  if bool_decide (lower protocol = "grpc")
  then mkExporter GRPC Traces trace_url headers
  else mkExporter HTTP Traces trace_url headers.


(** ** Python values, exceptions and results *)

(** The values that travel through keyword arguments and attributes. *)
Inductive PyVal :=
| VNone
| VBool (b : bool)
| VInt (z : Z)
| VStr (s : string).

(** A [**kwargs] bag: a [dict] keyed by strings. *)
Abbreviation Kwargs := (gmap string PyVal).

(** An exception instance, by what the facade reads from it:
    [type(e).__name__], [str(e)], and whether [isinstance(e, Exception)]
    (false for [KeyboardInterrupt], [SystemExit] and the like, which an
    [except Exception] clause lets through). *)
Record PyExc := mkExc {
  exc_type_name : string;
  exc_str : string;
  exc_is_Exception : bool
}.

Definition RuntimeError (msg : string) : PyExc := mkExc "RuntimeError" msg true.

Definition not_initialized : PyExc :=
  RuntimeError "LogzAI not initialized. Call logzai.init(...) first.".

(** The outcome of a call: a returned value or a raised exception. *)
Inductive Res (A : Type) :=
| Ok (a : A)
| Raise (e : PyExc).
Arguments Ok {A} a.
Arguments Raise {A} e.

(** Stateful, fallible code over a state [S]; effects made before an
    exception is raised persist. *)
Definition St (S A : Type) : Type := S → Res A * S.

Definition ret {S A} (a : A) : St S A := λ s, (Ok a, s).

Definition raise {S A} (e : PyExc) : St S A := λ s, (Raise e, s).

Definition bind {S A B} (c : St S A) (k : A → St S B) : St S B := λ s,
  match c s with
  | (Ok a, s') => k a s'
  | (Raise e, s') => (Raise e, s')
  end.

Notation "x <- c ;; k" := (bind c (λ x, k))
  (at level 100, c at next level, right associativity).
Notation "c ;; k" := (bind c (λ _, k))
  (at level 100, right associativity).

(** [logging] level constants. *)
Definition NOTSET : Z := 0.
Definition DEBUG : Z := 10.
Definition INFO : Z := 20.
Definition WARNING : Z := 30.
Definition ERROR : Z := 40.
Definition CRITICAL : Z := 50.

(** ** The OpenTelemetry and logging objects the facade holds *)

(** [Resource.create(attrs)], by the attributes passed in. *)
Record Resource := mkResource { resource_attributes : StrDict }.

Inductive SpanProcessor := BatchSpanProcessor (exporter : Exporter).
Inductive LogRecordProcessor := BatchLogRecordProcessor (exporter : Exporter).

Record TracerProvider := mkTracerProvider {
  tp_resource : Resource;
  tp_span_processors : list SpanProcessor
}.

Record LoggerProvider := mkLoggerProvider {
  lp_resource : Resource;
  lp_log_record_processors : list LogRecordProcessor
}.

(** [trace.get_tracer(name)]: a tracer of the process-wide provider. *)
Record Tracer := mkTracer {
  tracer_name : string;
  tracer_of : option TracerProvider
}.

Inductive Handler :=
| LoggingHandler (level : Z) (logger_provider : LoggerProvider)
| StreamHandler (level : Z) (formatter : string).

(** The state of one [logging.Logger]; the facade holds it by name, as
    [logging.getLogger(name)] hands out one shared object per name. *)
Record LoggerObj := mkLoggerObj {
  logger_level : Z;
  logger_handlers : list Handler;
  logger_propagate : bool
}.

(** The fields [LogzAIBase.__init__] declares. *)
Record LogzAIBase := mkLogzAI {
  log_provider : option LoggerProvider;
  tracer_provider : option TracerProvider;
  logger : option string;
  tracer : option Tracer;
  mirror_to_console : bool
}.

(** [LogzAIBase.__init__] *)
Definition __init__ : LogzAIBase := mkLogzAI None None None None false.

(** ** Spans *)

Inductive StatusCode := UNSET | OK | ERROR_STATUS.

Record Status := mkStatus {
  status_code : StatusCode;
  status_description : option string
}.

(** One span object of the SDK.  [span_end_calls] counts the [end()] calls
    the span has received; the span is ended once the count is positive. *)
Record SpanData := mkSpan {
  span_name : string;
  span_kwargs : Kwargs;
  span_parent : option nat;
  span_attributes : Kwargs;
  span_status : Status;
  span_exceptions : list PyExc;
  span_end_calls : nat
}.

Definition span_ended (sp : SpanData) : bool := (0 <? span_end_calls sp)%nat.

(** ** Calls on the collaborators, and what they may raise *)

(** The calls the facade (and [use_span] on its behalf) makes on objects
    it does not own, in the order they are made. *)
Inductive Call :=
| LoggerLog (name : string) (level : Z) (message : string)
            (extra : Kwargs) (stacklevel : Z)
| TracerStartSpan (name : string) (kwargs : Kwargs)
| ContextAttach (sp : nat)
| ContextDetach (token : option nat)
| SpanSetAttribute (sp : nat) (key : string) (value : PyVal)
| SpanSetStatus (sp : nat) (status : Status)
| SpanRecordException (sp : nat) (e : PyExc)
| SpanEnd (sp : nat)
| LoggerProviderShutdown
| TracerProviderShutdown.

(** What the facade cannot decide: the text [traceback.format_exception]
    produces, and whether a call on a collaborator raises, given all calls
    made before it ([Logger.log] on an [extra] key that clashes with a
    record attribute, [Tracer.start_span] on an unknown keyword, a provider
    that fails to flush). *)
Record Library := mkLibrary {
  format_exception : PyExc → list string;
  raises : list Call → Call → option PyExc
}.

(** ** The process state *)

Record World := mkWorld {
  self : LogzAIBase;                      (* the facade instance's fields *)
  spans : list SpanData;                  (* span objects, by identity *)
  active_span : option nat;               (* the ambient active span *)
  handling : option PyExc;                (* sys.exc_info() of the thread *)
  journal : list Call;                    (* calls made so far, oldest first *)
  global_tracer_provider : option TracerProvider;
  loggers : gmap string LoggerObj;        (* logging's registry of loggers *)
  library : Library
}.

Abbreviation M := (St World).

Definition with_self (f : LogzAIBase → LogzAIBase) (w : World) : World :=
  mkWorld (f (self w)) (spans w) (active_span w) (handling w) (journal w)
          (global_tracer_provider w) (loggers w) (library w).

Definition with_spans (f : list SpanData → list SpanData) (w : World) : World :=
  mkWorld (self w) (f (spans w)) (active_span w) (handling w) (journal w)
          (global_tracer_provider w) (loggers w) (library w).

Definition with_active_span (a : option nat) (w : World) : World :=
  mkWorld (self w) (spans w) a (handling w) (journal w)
          (global_tracer_provider w) (loggers w) (library w).

Definition with_handling (h : option PyExc) (w : World) : World :=
  mkWorld (self w) (spans w) (active_span w) h (journal w)
          (global_tracer_provider w) (loggers w) (library w).

Definition with_journal (f : list Call → list Call) (w : World) : World :=
  mkWorld (self w) (spans w) (active_span w) (handling w) (f (journal w))
          (global_tracer_provider w) (loggers w) (library w).

Definition with_global_tracer_provider
    (p : option TracerProvider) (w : World) : World :=
  mkWorld (self w) (spans w) (active_span w) (handling w) (journal w)
          p (loggers w) (library w).

Definition with_loggers
    (f : gmap string LoggerObj → gmap string LoggerObj) (w : World) : World :=
  mkWorld (self w) (spans w) (active_span w) (handling w) (journal w)
          (global_tracer_provider w) (f (loggers w)) (library w).

(** A process in which nothing has happened yet: the module-level
    [logzai = LogzAI()] has run and nothing else. *)
Definition fresh (lib : Library) : World :=
  mkWorld __init__ [] None None [] None ∅ lib.

(** Record a call in the journal. *)
Definition called (c : Call) : M unit :=
  λ w, (Ok tt, with_journal (λ j, (j ++ [c])%list) w).

(** A call whose outcome the library decides: it is recorded, then it
    raises or returns. *)
Definition external (c : Call) : M unit :=
  λ w, match raises (library w) (journal w) c with
       | Some e => (Raise e, with_journal (λ j, (j ++ [c])%list) w)
       | None => (Ok tt, with_journal (λ j, (j ++ [c])%list) w)
       end.

(** [try: c except <class> as e: h e], where [catches] tells the classes
    the clause names.  While the handler runs, [sys.exc_info()] is the
    caught exception; the previous one is restored when it is left. *)
Definition try_except {A} (c : M A) (catches : PyExc → bool)
    (h : PyExc → M A) : M A := λ w,
  match c w with
  | (Ok a, w') => (Ok a, w')
  | (Raise e, w') =>
      if catches e then
        let saved := handling w' in
        let '(r, w'') := h e (with_handling (Some e) w') in
        (r, with_handling saved w'')
      else (Raise e, w')
  end.

(** [try: c finally: f] *)
Definition try_finally {A} (c : M A) (f : M unit) : M A := λ w,
  match c w with
  | (Ok a, w') =>
      match f w' with
      | (Ok _, w'') => (Ok a, w'')
      | (Raise e', w'') => (Raise e', w'')
      end
  | (Raise e, w') =>
      match f w' with
      | (Ok _, w'') => (Raise e, w'')
      | (Raise e', w'') => (Raise e', w'')
      end
  end.

(** [except Exception] *)
Definition Exception : PyExc → bool := exc_is_Exception.

(** ** The collaborators: [logging], [opentelemetry.trace] and the SDK span

    These are not code of the repository.  They are modelled by the
    contract of the OpenTelemetry API and SDK that [main.py] imports: a
    span stops accepting updates once it has ended, a status that is
    already [OK] is final, an attribute with an empty key or with the
    value [None] is dropped, and [use_span] handles [Exception] only: it
    records the exception, sets the error status and only then ends the
    span when asked to; an exception outside [Exception] passes through
    it and only ends the span. *)

(** [logging.getLogger(name)]: the logger of that name, created with the
    defaults when it does not exist yet. *)
Definition getLogger (name : string) : M string := λ w,
  match loggers w !! name with
  | Some _ => (Ok name, w)
  | None => (Ok name, with_loggers <[name := mkLoggerObj NOTSET [] true]> w)
  end.

Definition update_logger (name : string) (f : LoggerObj → LoggerObj) : M unit :=
  λ w, (Ok tt, with_loggers (alter f name) w).

(** [Logger.setLevel(level)] *)
Definition setLevel (name : string) (level : Z) : M unit :=
  update_logger name
    (λ l, mkLoggerObj level (logger_handlers l) (logger_propagate l)).

(** [Logger.addHandler(h)], for a handler object just created. *)
Definition addHandler (name : string) (h : Handler) : M unit :=
  update_logger name
    (λ l, mkLoggerObj (logger_level l) (logger_handlers l ++ [h])%list
                      (logger_propagate l)).

(** [logger.propagate = b] *)
Definition set_propagate (name : string) (b : bool) : M unit :=
  update_logger name
    (λ l, mkLoggerObj (logger_level l) (logger_handlers l) b).

(** [Logger.log(level, message, extra=extra, stacklevel=stacklevel)] *)
Definition logger_log (name : string) (level : Z) (message : string)
    (extra : Kwargs) (stacklevel : Z) : M unit :=
  external (LoggerLog name level message extra stacklevel).

(** [trace.set_tracer_provider(p)]: the process-wide provider is set once;
    a later call leaves it as it is. *)
Definition set_tracer_provider (p : TracerProvider) : M unit := λ w,
  match global_tracer_provider w with
  | None => (Ok tt, with_global_tracer_provider (Some p) w)
  | Some _ => (Ok tt, w)
  end.

(** [trace.get_tracer(name)] *)
Definition get_tracer (name : string) : M Tracer := λ w,
  (Ok (mkTracer name (global_tracer_provider w)), w).

(** [LoggerProvider.shutdown()] and [TracerProvider.shutdown()] *)
Definition log_provider_shutdown (p : LoggerProvider) : M unit :=
  external LoggerProviderShutdown.

Definition tracer_provider_shutdown (p : TracerProvider) : M unit :=
  external TracerProviderShutdown.

(** [Tracer.start_span(name, **kwargs)]: a new recording span, child of
    the ambient active span, status unset. *)
Definition tracer_start_span (t : Tracer) (name : string) (kwargs : Kwargs)
    : M nat :=
  external (TracerStartSpan name kwargs) ;;
  λ w, (Ok (length (spans w)),
        with_spans
          (λ l, (l ++ [mkSpan name kwargs (active_span w) ∅
                              (mkStatus UNSET None) [] 0])%list) w).

Definition update_span (sp : nat) (f : SpanData → SpanData) : M unit :=
  λ w, (Ok tt, with_spans (alter f sp) w).

(** [Span.is_recording()] *)
Definition span_is_recording (sp : nat) : M bool := λ w,
  match spans w !! sp with
  | Some d => (Ok (negb (span_ended d)), w)
  | None => (Ok false, w)
  end.

(** The attributes the SDK span refuses to store: an empty key, and a
    value that is [None]. *)
Definition invalid_attribute (key : string) (value : PyVal) : bool :=
  bool_decide (key = EmptyString)
  || match value with VNone => true | _ => false end.

(** [Span.set_attribute(key, value)]: ignored on an ended span, and for
    an attribute the span refuses to store.  (A span that already holds
    as many attributes as its limit allows, 128 unless configured
    otherwise, evicts its oldest attribute to store a new key; the
    attributes are kept here without their order, and the statements on
    attributes are made for spans below that limit.) *)
Definition span_set_attribute (sp : nat) (key : string) (value : PyVal)
    : M unit :=
  called (SpanSetAttribute sp key value) ;;
  update_span sp (λ d,
    if span_ended d || invalid_attribute key value then d
    else mkSpan (span_name d) (span_kwargs d) (span_parent d)
                (<[key := value]> (span_attributes d))
                (span_status d) (span_exceptions d) (span_end_calls d)).

(** [Span.set_status(status)]: ignored on an ended span, when the status
    is already [OK], and when the new code is [UNSET]. *)
Definition span_set_status (sp : nat) (status : Status) : M unit :=
  called (SpanSetStatus sp status) ;;
  update_span sp (λ d,
    if span_ended d then d
    else match status_code (span_status d), status_code status with
         | OK, _ => d
         | _, UNSET => d
         | _, _ => mkSpan (span_name d) (span_kwargs d) (span_parent d)
                          (span_attributes d) status
                          (span_exceptions d) (span_end_calls d)
         end).

(** [Span.record_exception(e)]: ignored on an ended span. *)
Definition span_record_exception (sp : nat) (e : PyExc) : M unit :=
  called (SpanRecordException sp e) ;;
  update_span sp (λ d,
    if span_ended d then d
    else mkSpan (span_name d) (span_kwargs d) (span_parent d)
                (span_attributes d) (span_status d)
                (span_exceptions d ++ [e])%list (span_end_calls d)).

(** [Span.end()] *)
Definition span_end (sp : nat) : M unit :=
  called (SpanEnd sp) ;;
  update_span sp (λ d,
    mkSpan (span_name d) (span_kwargs d) (span_parent d)
           (span_attributes d) (span_status d)
           (span_exceptions d) (S (span_end_calls d))).

(** [context.attach(set_span_in_context(span))]: the token is the context
    that was current. *)
Definition context_attach (sp : nat) : M (option nat) :=
  called (ContextAttach sp) ;;
  λ w, (Ok (active_span w), with_active_span (Some sp) w).

(** [context.detach(token)] *)
Definition context_detach (token : option nat) : M unit :=
  called (ContextDetach token) ;;
  λ w, (Ok tt, with_active_span token w).

(** [with trace.use_span(span, end_on_exit, record_exception,
    set_status_on_exception): block].  Its handler is an
    [except Exception]. *)
Definition use_span {A} (sp : nat)
    (end_on_exit record_exception set_status_on_exception : bool)
    (block : M A) : M A :=
  try_finally
    (try_except
       (token <- context_attach sp ;;
        try_finally block (context_detach token))
       Exception
       (λ exc,
          recording <- span_is_recording sp ;;
          (if recording then
             (if record_exception then span_record_exception sp exc
              else ret tt) ;;
             (if set_status_on_exception then
                span_set_status sp
                  (mkStatus ERROR_STATUS
                     (Some (exc_type_name exc +:+ ": " +:+ exc_str exc)))
              else ret tt)
           else ret tt) ;;
          raise exc))
    (if end_on_exit then span_end sp else ret tt).

(** ** The facade: class [LogzAI] *)

(** Python truthiness of an [Optional[str]]. *)
Definition truthy (o : option string) : bool :=
  match o with
  | None => false
  | Some s => negb (bool_decide (s = EmptyString))
  end.

(** What [init] hands to the exporters and providers: the header dict and
    the resource attributes, with the origin entries when [origin] is
    truthy. *)
Definition init_headers (ingest_token : string) (origin : option string)
    : StrDict :=
  match origin with
  | Some o =>
      if bool_decide (o = EmptyString) then [("x-ingest-token", ingest_token)]
      else [("x-ingest-token", ingest_token); ("x-origin", o)]
  | None => [("x-ingest-token", ingest_token)]
  end.

Definition init_resource (service_name service_namespace environment : string)
    (origin : option string) : Resource :=
  mkResource
    ([("service.name", service_name);
      ("service.namespace", service_namespace);
      ("deployment.environment", environment)]
     ++ match origin with
        | Some o =>
            if bool_decide (o = EmptyString) then [] else [("origin", o)]
        | None => []
        end)%list.

Module LogzAI.

(** Defaults of the keyword parameters. *)
Definition default_ingest_endpoint : string := "http://ingest.logzai.com".
Definition default_min_level : Z := DEBUG.
Definition default_service_name : string := "app".
Definition default_service_namespace : string := "default".
Definition default_environment : string := "prod".
Definition default_protocol : string := "http".

Definition console_format : string :=
  "%(asctime)s - %(name)s - %(levelname)s - %(message)s".

(** [LogzAI.init] *)
Definition init (ingest_token ingest_endpoint : string) (min_level : Z)
    (service_name service_namespace environment protocol : string)
    (mirror : bool) (origin : option string) : M unit :=
  (λ w, (Ok tt, with_self (λ s,
     mkLogzAI (log_provider s) (tracer_provider s) (logger s) (tracer s)
              mirror) w)) ;;
  let resource_attrs : StrDict :=
    [("service.name", service_name);
     ("service.namespace", service_namespace);
     ("deployment.environment", environment)] in
  let resource_attrs :=
    if truthy origin then dict_set resource_attrs "origin" (default EmptyString origin)
    else resource_attrs in
  let resource := mkResource resource_attrs in
  let headers : StrDict := [("x-ingest-token", ingest_token)] in
  let headers :=
    if truthy origin then dict_set headers "x-origin" (default EmptyString origin)
    else headers in
  let span_processor :=
    BatchSpanProcessor (_make_trace_exporter ingest_endpoint headers protocol) in
  let tp := mkTracerProvider resource [span_processor] in
  (λ w, (Ok tt, with_self (λ s,
     mkLogzAI (log_provider s) (Some tp) (logger s) (tracer s)
              (mirror_to_console s)) w)) ;;
  set_tracer_provider tp ;;
  t <- get_tracer "logzai" ;;
  (λ w, (Ok tt, with_self (λ s,
     mkLogzAI (log_provider s) (tracer_provider s) (logger s) (Some t)
              (mirror_to_console s)) w)) ;;
  let log_processor :=
    BatchLogRecordProcessor (_make_log_exporter ingest_endpoint headers protocol) in
  let lp := mkLoggerProvider resource [log_processor] in
  (λ w, (Ok tt, with_self (λ s,
     mkLogzAI (Some lp) (tracer_provider s) (logger s) (tracer s)
              (mirror_to_console s)) w)) ;;
  let handler := LoggingHandler NOTSET lp in
  lg <- getLogger "logzai" ;;
  (λ w, (Ok tt, with_self (λ s,
     mkLogzAI (log_provider s) (tracer_provider s) (Some lg) (tracer s)
              (mirror_to_console s)) w)) ;;
  setLevel lg min_level ;;
  addHandler lg handler ;;
  set_propagate lg false ;;
  λ w, (if mirror_to_console (self w)
        then addHandler lg (StreamHandler min_level console_format)
        else ret tt) w.

(** The fields [log] adds to [kwargs] for the exception being handled. *)
Definition exception_fields (lib : Library) (e : PyExc) (kwargs : Kwargs)
    : Kwargs :=
  <["exception.stacktrace" :=
      VStr (String.concat EmptyString (format_exception lib e))]>
    (<["exception.message" := VStr (exc_str e)]>
       (<["exception.type" := VStr (exc_type_name e)]>
          (<["is_exception" := VBool true]> kwargs))).

(** [LogzAI.log]; [stacklevel = None] and [exc_info = None] are calls
    that leave the keyword out. *)
Definition log (level : Z) (message : string) (stacklevel : option Z)
    (exc_info : option bool) (kwargs : Kwargs) : M unit := λ w,
  let stacklevel := default 2%Z stacklevel in
  let exc_info := default false exc_info in
  match logger (self w) with
  | None => raise not_initialized w
  | Some lg =>
      let kwargs :=
        if exc_info || bool_decide (handling w ≠ None) then
          match handling w with
          | Some e => exception_fields (library w) e kwargs
          | None => kwargs
          end
        else kwargs in
      logger_log lg level message kwargs stacklevel w
  end.

(** The call [self.log(level, message, stacklevel=.., exc_info=..,
    **kwargs)] of a wrapper: Python refuses it with a [TypeError] when
    [kwargs] names a parameter that the call already binds. *)
Definition log_parameters : list string :=
  ["self"; "level"; "message"; "stacklevel"; "exc_info"].

Definition clashes (kwargs : Kwargs) : bool :=
  existsb (λ p, match kwargs !! p with Some _ => true | None => false end)
    log_parameters.

Definition TypeError (msg : string) : PyExc := mkExc "TypeError" msg true.

Definition call_log (level : Z) (message : string) (stacklevel : Z)
    (exc_info : bool) (kwargs : Kwargs) : M unit :=
  if clashes kwargs
  then raise (TypeError "LogzAI.log() got multiple values for keyword argument")
  else log level message (Some stacklevel) (Some exc_info) kwargs.

(** The leveled wrappers; [exc_info = None] is a call that leaves the
    keyword out. *)
Definition debug (message : string) (exc_info : option bool)
    (kwargs : Kwargs) : M unit :=
  call_log DEBUG message 3 (default false exc_info) kwargs.

Definition info (message : string) (exc_info : option bool)
    (kwargs : Kwargs) : M unit :=
  call_log INFO message 3 (default false exc_info) kwargs.

Definition warning (message : string) (exc_info : option bool)
    (kwargs : Kwargs) : M unit :=
  call_log WARNING message 3 (default false exc_info) kwargs.

Definition warn (message : string) (exc_info : option bool)
    (kwargs : Kwargs) : M unit :=
  call_log WARNING message 3 (default false exc_info) kwargs.

Definition error (message : string) (exc_info : option bool)
    (kwargs : Kwargs) : M unit :=
  call_log ERROR message 3 (default true exc_info) kwargs.

Definition critical (message : string) (exc_info : option bool)
    (kwargs : Kwargs) : M unit :=
  call_log CRITICAL message 3 (default true exc_info) kwargs.

Definition exception (message : string) (kwargs : Kwargs) : M unit :=
  call_log ERROR message 3 true kwargs.

(** [LogzAI.start_span] *)
Definition start_span (name : string) (kwargs : Kwargs) : M nat := λ w,
  match tracer (self w) with
  | None => raise not_initialized w
  | Some t => tracer_start_span t name kwargs w
  end.

(** [with LogzAI.span(name, **kwargs) as s: block s], the generator of
    the context manager run around the block. *)
Definition span {A} (name : string) (kwargs : Kwargs) (block : nat → M A)
    : M A :=
  sp <- start_span name kwargs ;;
  try_except
    (use_span sp true true true (block sp))
    Exception
    (λ e,
       span_set_status sp (mkStatus ERROR_STATUS (Some (exc_str e))) ;;
       raise e).

(** [LogzAI.set_span_attribute] *)
Definition set_span_attribute (sp : nat) (key : string) (value : PyVal)
    : M unit :=
  span_set_attribute sp key value.

(** [LogzAI.shutdown] *)
Definition shutdown : M unit :=
  (λ w, match log_provider (self w) with
        | Some p =>
            try_except (log_provider_shutdown p) Exception (λ _, ret tt) w
        | None => ret tt w
        end) ;;
  (λ w, match tracer_provider (self w) with
        | Some p =>
            try_except (tracer_provider_shutdown p) Exception (λ _, ret tt) w
        | None => ret tt w
        end).

End LogzAI.

(** ** The plugin registry

    [examples/plugin_example.py] and the other example programs call
    [logzai.plugin(name, installer, config)] and
    [logzai.unregister_plugin(name)], and expect [shutdown()] to clean up
    the plugins that remain; the class in [main.py] defines none of this.
    The registry below follows the specification's words instead. *)

Module PluginRegistry.

(** Modelled from the spec: the hooks a plugin installs into host objects
    are absent from the sources; a hook is known by a name and the host
    state is the multiset of hooks in place, so that a hook stacked twice
    shows. *)
Abbreviation Host := (gmultiset string).

(** Modelled from the spec: the cleanup callback an installer returns is
    absent from the sources; it takes no arguments, acts on the host state
    and may raise; [cleanup_id] tells callbacks apart. *)
Record Cleanup := mkCleanup {
  cleanup_id : nat;
  cleanup_run : Host → Res unit * Host
}.

(** Modelled from the spec: the installer contract is absent from the
    sources; an installer is invoked with the shared facade instance and the
    config value, and returns a cleanup callback or a value treated as
    no cleanup needed ([None]), or raises. *)
Abbreviation Installer :=
  (LogzAIBase → PyVal → Host → Res (option Cleanup) * Host).

(** Modelled from the spec: the [PluginEntry] record is absent from the
    sources; it holds the name, the configuration value supplied at
    registration and the cleanup callback the installer returned. *)
Record PluginEntry := mkEntry {
  entry_name : string;
  entry_config : PyVal;
  entry_cleanup : option Cleanup
}.

(** What the registry did, oldest first: an entry came to be installed, a
    stored cleanup was invoked, an entry was removed. *)
Inductive Event :=
| Installed (name : string)
| Invoked (name : string) (id : nat)
| Removed (name : string).

(** Modelled from the spec: the registry state is absent from the sources;
    it is a table of the currently installed plugins in registration order,
    next to the host state the plugins act on. *)
Record State := mkState {
  entries : list PluginEntry;
  host : Host;
  events : list Event
}.

Definition empty : State := mkState [] ∅ [].

Definition lookup (name : string) (s : State) : option PluginEntry :=
  List.find (λ en, bool_decide (entry_name en = name)) (entries s).

Definition remove (name : string) (l : list PluginEntry) : list PluginEntry :=
  List.filter (λ en, negb (bool_decide (entry_name en = name))) l.

(** Modelled from the spec: running a stored cleanup is absent from the
    sources; the callback is invoked and a failure of it is swallowed, so
    that teardown always completes. *)
Definition run_cleanup (en : PluginEntry) : St State unit := λ s,
  match entry_cleanup en with
  | None => (Ok tt, s)
  | Some c =>
      let '(_, h) := cleanup_run c (host s) in
      (Ok tt, mkState (entries s) h
                (events s ++ [Invoked (entry_name en) (cleanup_id c)])%list)
  end.

(** Modelled from the spec: [unregister_plugin] is absent from the
    sources; if the name is present it invokes the stored cleanup, then
    removes the entry; if absent it is a no-op, not an error. *)
Definition unregister_plugin (name : string) : St State unit := λ s,
  match lookup name s with
  | None => (Ok tt, s)
  | Some en =>
      let '(_, s1) := run_cleanup en s in
      (Ok tt, mkState (remove name (entries s1)) (host s1)
                (events s1 ++ [Removed name])%list)
  end.

(** Modelled from the spec: [plugin] is absent from the sources;
    re-registration under an existing name first runs that name's existing
    cleanup, the entry passing through unregistered; then the installer is
    invoked with the facade instance and the config value; a failure of the
    installer propagates to the caller and stores nothing; otherwise the
    entry is stored with the cleanup the installer returned. *)
Definition plugin (facade : LogzAIBase) (name : string)
    (installer : Installer) (config : PyVal) : St State unit :=
  unregister_plugin name ;;
  λ s,
    match installer facade config (host s) with
    | (Raise e, h) => (Raise e, mkState (entries s) h (events s))
    | (Ok c, h) =>
        (Ok tt, mkState (entries s ++ [mkEntry name config c])%list h
                  (events s ++ [Installed name])%list)
    end.

(** Modelled from the spec: the registry part of [shutdown] is absent from
    the sources; it iterates every still-registered plugin in registration
    order, invoking each cleanup and swallowing any individual failure, and
    destroys the entries. *)
Fixpoint drain_entries (l : list PluginEntry) : St State unit :=
  match l with
  | [] => ret tt
  | en :: l' =>
      run_cleanup en ;;
      (λ s, (Ok tt, mkState (remove (entry_name en) (entries s)) (host s)
                      (events s ++ [Removed (entry_name en)])%list)) ;;
      drain_entries l'
  end.

Definition drain : St State unit := λ s, drain_entries (entries s) s.

(** Modelled from the spec: the facade-wide [shutdown] with plugins is
    absent from the sources; it drains the registry, then tears down the
    telemetry pipeline, which is [LogzAI.shutdown] of [main.py]. *)
Definition shutdown : St (State * World) unit := λ '(s, w),
  let '(_, s') := drain s in
  let '(r, w') := LogzAI.shutdown w in
  (r, (s', w')).















End PluginRegistry.


(** ** Libraries and states used in examples *)

(** A library in which no call fails. *)
Definition quiet_library : Library :=
  mkLibrary
    (λ e, ["Traceback (most recent call last):";
           exc_type_name e +:+ ": " +:+ exc_str e])
    (λ _ _, None).

(** A library in which both providers fail to shut down, and the logger
    provider fails again on every later attempt. *)
Definition failing_library : Library :=
  mkLibrary
    (λ e, [exc_type_name e +:+ ": " +:+ exc_str e])
    (λ _ c,
       match c with
       | LoggerProviderShutdown => Some (mkExc "TimeoutError" "flush timed out" true)
       | TracerProviderShutdown => Some (mkExc "OSError" "connection reset" true)
       | _ => None
       end).

(** The process after [logzai.init("token")] with every default. *)
Definition initialized (lib : Library) : World :=
  (LogzAI.init "token" LogzAI.default_ingest_endpoint
     LogzAI.default_min_level LogzAI.default_service_name
     LogzAI.default_service_namespace LogzAI.default_environment
     LogzAI.default_protocol false None (fresh lib)).2.

Definition ValueError (msg : string) : PyExc := mkExc "ValueError" msg true.

(** A computation that leaves the facade's fields and the library as they
    are. *)
Definition frame {A} (c : M A) : Prop :=
  ∀ w, self (c w).2 = self w ∧ library (c w).2 = library w.

(** The calls [shutdown] makes for a facade in state [s]: one per provider
    that is set. *)
Definition shutdown_calls (s : LogzAIBase) : list Call :=
  (match log_provider s with Some _ => [LoggerProviderShutdown] | None => [] end
   ++ match tracer_provider s with
      | Some _ => [TracerProviderShutdown]
      | None => []
      end)%list.

(** The four keys [log] reserves for the exception being handled. *)
Definition exception_keys : list string :=
  ["is_exception"; "exception.type"; "exception.message";
   "exception.stacktrace"].

(** The span object as [use_span] and the facade leave it when the block
    has raised [e], an [Exception]. *)
Definition failed_span (d : SpanData) (e : PyExc) : SpanData :=
  mkSpan (span_name d) (span_kwargs d) (span_parent d) (span_attributes d)
    (mkStatus ERROR_STATUS (Some (exc_type_name e +:+ ": " +:+ exc_str e)))
    (span_exceptions d ++ [e])%list 1.

(** The span object as [use_span] leaves it when the block has returned,
    or has raised an exception that is no [Exception]. *)
Definition closed_span (d : SpanData) : SpanData :=
  mkSpan (span_name d) (span_kwargs d) (span_parent d) (span_attributes d)
    (span_status d) (span_exceptions d) 1.

(** The providers raise nothing but [Exception] instances when they are
    shut down. *)
Definition shutdown_failures_are_Exceptions (lib : Library) : Prop :=
  ∀ j e,
    (raises lib j LoggerProviderShutdown = Some e → exc_is_Exception e = true)
    ∧ (raises lib j TracerProviderShutdown = Some e → exc_is_Exception e = true).

(** ** Notions used in the further statements *)

(** [KeyboardInterrupt()], which is no [Exception]. *)
Definition KeyboardInterrupt : PyExc :=
  mkExc "KeyboardInterrupt" EmptyString false.

(** A library in which the logger provider is interrupted while it shuts
    down. *)
Definition interrupted_library : Library :=
  mkLibrary
    (λ e, [exc_type_name e +:+ ": " +:+ exc_str e])
    (λ _ c,
       match c with
       | LoggerProviderShutdown => Some KeyboardInterrupt
       | _ => None
       end).

(** The exporters behind the providers the facade holds. *)
Definition log_exporters (s : LogzAIBase) : list Exporter :=
  match log_provider s with
  | Some lp =>
      (λ p, match p with BatchLogRecordProcessor e => e end)
        <$> lp_log_record_processors lp
  | None => []
  end.

Definition trace_exporters (s : LogzAIBase) : list Exporter :=
  match tracer_provider s with
  | Some tp =>
      (λ p, match p with BatchSpanProcessor e => e end)
        <$> tp_span_processors tp
  | None => []
  end.

(** The handlers of the logger called [name], none when there is no such
    logger yet. *)
Definition handlers_of (w : World) (name : string) : list Handler :=
  match loggers w !! name with
  | Some l => logger_handlers l
  | None => []
  end.

(** The span [Tracer.start_span] creates. *)
Definition new_span (name : string) (kwargs : Kwargs) (parent : option nat)
    : SpanData :=
  mkSpan name kwargs parent ∅ (mkStatus UNSET None) [] 0.

(** The number of attributes an SDK span holds at most, unless configured
    otherwise. *)
Definition attribute_count_limit : nat := 128.

(** The span [d] with the attribute [key] set to [value]. *)
Definition with_attribute (d : SpanData) (key : string) (value : PyVal)
    : SpanData :=
  mkSpan (span_name d) (span_kwargs d) (span_parent d)
    (<[key := value]> (span_attributes d))
    (span_status d) (span_exceptions d) (span_end_calls d).

(** The span [d] after one more [end()]. *)
Definition with_end (d : SpanData) : SpanData :=
  mkSpan (span_name d) (span_kwargs d) (span_parent d) (span_attributes d)
    (span_status d) (span_exceptions d) (S (span_end_calls d)).

(** The state in which the block of [span(name, **kwargs)] starts when the
    tracer has accepted the arguments: the new span exists and is the
    ambient active span. *)
Definition entered (name : string) (kwargs : Kwargs) (w : World) : World :=
  mkWorld (self w)
    (spans w ++ [new_span name kwargs (active_span w)])%list
    (Some (length (spans w))) (handling w)
    (journal w ++ [TracerStartSpan name kwargs;
                   ContextAttach (length (spans w))])%list
    (global_tracer_provider w) (loggers w) (library w).

(** A library whose tracer rejects every [start_span]. *)
Definition rejecting_library : Library :=
  mkLibrary
    (λ e, [exc_type_name e +:+ ": " +:+ exc_str e])
    (λ _ c,
       match c with
       | TracerStartSpan _ _ => Some (LogzAI.TypeError "unexpected keyword argument")
       | _ => None
       end).
(** ** Trailing-slash stripping *)

Lemma rstrip_slash_decompose (s : string) :
  ∃ k, s = rstrip [slash] s +:+ slashes k
       ∧ ends_with_slash (rstrip [slash] s) = false.
Proof.
  induction s as [|a s [k [Hs Hend]]].
  - exists 0%nat. done.
  - simpl. destruct (rstrip [slash] s) as [|b r] eqn:Hr.
    + simpl in Hs. subst s. case_bool_decide as Ha.
      * exists (S k). apply list_elem_of_singleton in Ha. by subst a.
      * exists k. split; [done|]. simpl.
        case_bool_decide as Hb; [|done].
        subst a. exfalso. apply Ha. by apply list_elem_of_singleton.
    + exists k. split; [|exact Hend].
      change (String a (String b r) +:+ slashes k)
        with (String a (String b r +:+ slashes k)).
      by rewrite <- Hs.
Qed.

Lemma ends_with_slash_cons (a : ascii) (s : string) :
  s ≠ EmptyString → ends_with_slash (String a s) = ends_with_slash s.
Proof. by destruct s. Qed.

(** A prefix of a run of slashes is empty or ends with a slash. *)
Lemma app_slashes_all (s : string) (m n : nat) :
  s +:+ slashes m = slashes n → s = EmptyString ∨ ends_with_slash s = true.
Proof.
  revert n. induction s as [|c s IH]; intros n Hs; [by left|right].
  destruct n as [|n]; [discriminate|].
  simpl in Hs. injection Hs as -> Hs.
  destruct (IH _ Hs) as [->|Hend]; [done|].
  rewrite ends_with_slash_cons; [done|]. by destruct s.
Qed.

Lemma stripped_base_unique (b1 b2 : string) (k1 k2 : nat) :
  b1 +:+ slashes k1 = b2 +:+ slashes k2 →
  ends_with_slash b1 = false → ends_with_slash b2 = false →
  b1 = b2.
Proof.
  revert b2. induction b1 as [|a b1 IH]; intros b2 Heq H1 H2.
  - destruct b2 as [|c b2]; [done|]. exfalso.
    symmetry in Heq. simpl in Heq.
    destruct (app_slashes_all (String c b2) k2 k1 Heq); congruence.
  - destruct b2 as [|c b2].
    + exfalso. simpl in Heq.
      destruct (app_slashes_all (String a b1) k1 k2 Heq); congruence.
    + simpl in Heq. injection Heq as -> Heq.
      f_equal. apply IH; [done| |].
      * destruct b1; [done|]. exact H1.
      * destruct b2; [done|]. exact H2.
Qed.

(** ** Export targets *)

Lemma lower_ascii_g (c : ascii) :
  lower_ascii c = "g"%char ↔ c = "g"%char ∨ c = "G"%char.
Proof.
  split.
  - destruct c as [[] [] [] [] [] [] [] []]; vm_compute; intros H;
      first [discriminate H | by left | by right].
  - by intros [->| ->].
Qed.

Lemma lower_ascii_r (c : ascii) :
  lower_ascii c = "r"%char ↔ c = "r"%char ∨ c = "R"%char.
Proof.
  split.
  - destruct c as [[] [] [] [] [] [] [] []]; vm_compute; intros H;
      first [discriminate H | by left | by right].
  - by intros [->| ->].
Qed.

Lemma lower_ascii_p (c : ascii) :
  lower_ascii c = "p"%char ↔ c = "p"%char ∨ c = "P"%char.
Proof.
  split.
  - destruct c as [[] [] [] [] [] [] [] []]; vm_compute; intros H;
      first [discriminate H | by left | by right].
  - by intros [->| ->].
Qed.

Lemma lower_ascii_c (c : ascii) :
  lower_ascii c = "c"%char ↔ c = "c"%char ∨ c = "C"%char.
Proof.
  split.
  - destruct c as [[] [] [] [] [] [] [] []]; vm_compute; intros H;
      first [discriminate H | by left | by right].
  - by intros [->| ->].
Qed.

(** [p.lower() == "grpc"] holds exactly for the sixteen spellings of
    [grpc] in upper and lower case. *)
Lemma lower_grpc (p : string) :
  lower p = "grpc" ↔
  ∃ c1 c2 c3 c4,
    p = String c1 (String c2 (String c3 (String c4 EmptyString)))
    ∧ (c1 = "g"%char ∨ c1 = "G"%char) ∧ (c2 = "r"%char ∨ c2 = "R"%char)
    ∧ (c3 = "p"%char ∨ c3 = "P"%char) ∧ (c4 = "c"%char ∨ c4 = "C"%char).
Proof.
  split.
  - destruct p as [|c1 [|c2 [|c3 [|c4 [|c5 p]]]]]; try discriminate.
    simpl. intros H. injection H as H1 H2 H3 H4.
    exists c1, c2, c3, c4. split; [done|].
    by rewrite <- lower_ascii_g, <- lower_ascii_r, <- lower_ascii_p,
               <- lower_ascii_c.
  - intros (c1 & c2 & c3 & c4 & -> & H1 & H2 & H3 & H4). simpl.
    apply lower_ascii_g in H1. apply lower_ascii_r in H2.
    apply lower_ascii_p in H3. apply lower_ascii_c in H4.
    by rewrite H1, H2, H3, H4.
Qed.

(** C7: for every base URL and protocol the log exporter is bound to the
    base with all its trailing slashes stripped followed by [/logs], and the
    trace exporter to the same stripped base followed by [/traces]; the
    stripped base [b] is the one string that does not end in a slash and
    from which the base URL is obtained by appending slashes only.  In
    particular [http://host:1234/] gives [http://host:1234/logs] and
    [http://host:1234/traces]. *)
Theorem export_targets (endpoint : string) (headers : StrDict)
    (protocol : string) :
  (∃ (b : string) (k : nat),
      endpoint = b +:+ slashes k
      ∧ ends_with_slash b = false
      ∧ (∀ (b' : string) (k' : nat),
            endpoint = b' +:+ slashes k' ∧ ends_with_slash b' = false ↔
            b' = b ∧ k' = k)
      ∧ exp_endpoint (_make_log_exporter endpoint headers protocol)
        = b +:+ "/logs"
      ∧ exp_endpoint (_make_trace_exporter endpoint headers protocol)
        = b +:+ "/traces")
  ∧ exp_endpoint (_make_log_exporter "http://host:1234/" headers "http")
    = "http://host:1234/logs"
  ∧ exp_endpoint (_make_trace_exporter "http://host:1234/" headers "http")
    = "http://host:1234/traces"
  ∧ exp_endpoint (_make_log_exporter "http://host:1234/" headers "grpc")
    = "http://host:1234/logs"
  ∧ exp_endpoint (_make_trace_exporter "http://host:1234/" headers "grpc")
    = "http://host:1234/traces".
Proof.
  split; [|by vm_compute].
  destruct (rstrip_slash_decompose endpoint) as [k [Hk Hend]].
  exists (rstrip [slash] endpoint), k.
  split; [done|]. split; [done|]. split.
  - intros b' k'. split.
    + intros [Hb' Hend'].
      assert (b' = rstrip [slash] endpoint) as ->.
      { eapply stripped_base_unique; [|done..]. by rewrite <- Hb', <- Hk. }
      split; [done|].
      rewrite Hk in Hb' at 1. apply (inj (String.app _)) in Hb'.
      clear -Hb'. revert k' Hb'. induction k as [|k IH]; intros [|k'] H;
        try done. injection H as H. f_equal. by apply IH.
    + by intros [-> ->].
  - unfold _make_log_exporter, _make_trace_exporter.
    by case_bool_decide.
Qed.

(** What [init] leaves behind, whatever the process state was: it returns,
    the five fields of the facade are set, and no call that could fail was
    made on a collaborator. *)
Lemma init_run (ingest_token ingest_endpoint : string) (min_level : Z)
    (service_name service_namespace environment protocol : string)
    (mirror : bool) (origin : option string) (w : World) :
  let r := LogzAI.init ingest_token ingest_endpoint min_level service_name
             service_namespace environment protocol mirror origin w in
  let hs := init_headers ingest_token origin in
  let res := init_resource service_name service_namespace environment origin in
  let tp := mkTracerProvider res
              [BatchSpanProcessor
                 (_make_trace_exporter ingest_endpoint hs protocol)] in
  let lp := mkLoggerProvider res
              [BatchLogRecordProcessor
                 (_make_log_exporter ingest_endpoint hs protocol)] in
  r.1 = Ok tt
  ∧ self r.2
    = mkLogzAI (Some lp) (Some tp) (Some "logzai")
        (Some (mkTracer "logzai"
                 (Some (default tp (global_tracer_provider w)))))
        mirror
  ∧ journal r.2 = journal w
  ∧ spans r.2 = spans w
  ∧ handling r.2 = handling w.
Proof.
  unfold LogzAI.init, init_headers, init_resource, truthy.
  destruct origin as [o|]; simpl;
    [destruct (bool_decide (o = EmptyString)) eqn:Ho; simpl|];
    unfold bind, set_tracer_provider, get_tracer, getLogger, setLevel,
      addHandler, set_propagate, update_logger, ret; simpl;
    destruct (global_tracer_provider w) eqn:Hg; simpl;
    destruct (loggers w !! "logzai") eqn:Hl; simpl;
    destruct mirror; simpl; rewrite ?Hg; done.
Qed.

(** C10: the gRPC exporter classes are chosen exactly when
    [protocol.lower()] is [grpc], that is for the sixteen upper/lower-case
    spellings of [grpc]; every other protocol string, [tcp] among them,
    gets the HTTP exporter classes, and no protocol string makes [init]
    raise. *)
Theorem protocol_selection (endpoint : string) (headers : StrDict)
    (p : string) :
  (exp_transport (_make_log_exporter endpoint headers p) = GRPC
   ↔ lower p = "grpc")
  ∧ (exp_transport (_make_trace_exporter endpoint headers p) = GRPC
     ↔ lower p = "grpc")
  ∧ (exp_transport (_make_log_exporter endpoint headers p) = HTTP
     ↔ lower p ≠ "grpc")
  ∧ (exp_transport (_make_trace_exporter endpoint headers p) = HTTP
     ↔ lower p ≠ "grpc")
  ∧ (lower p = "grpc" ↔
     ∃ c1 c2 c3 c4,
       p = String c1 (String c2 (String c3 (String c4 EmptyString)))
       ∧ (c1 = "g"%char ∨ c1 = "G"%char) ∧ (c2 = "r"%char ∨ c2 = "R"%char)
       ∧ (c3 = "p"%char ∨ c3 = "P"%char) ∧ (c4 = "c"%char ∨ c4 = "C"%char))
  ∧ exp_transport (_make_log_exporter endpoint headers "tcp") = HTTP
  ∧ exp_transport (_make_trace_exporter endpoint headers "tcp") = HTTP
  ∧ exp_transport (_make_log_exporter endpoint headers "GRPC") = GRPC
  ∧ exp_transport (_make_trace_exporter endpoint headers "gRpc") = GRPC
  ∧ (∀ token min_level service_name service_namespace environment mirror
       origin w,
       let r := LogzAI.init token endpoint min_level service_name
                  service_namespace environment p mirror origin w in
       let res :=
         init_resource service_name service_namespace environment origin in
       r.1 = Ok tt
       ∧ log_provider (self r.2)
         = Some (mkLoggerProvider res
                   [BatchLogRecordProcessor
                      (_make_log_exporter endpoint
                         (init_headers token origin) p)])
       ∧ tracer_provider (self r.2)
         = Some (mkTracerProvider res
                   [BatchSpanProcessor
                      (_make_trace_exporter endpoint
                         (init_headers token origin) p)])).
Proof.
  assert (Hlog : ∀ q, exp_transport (_make_log_exporter endpoint headers q)
                      = if bool_decide (lower q = "grpc") then GRPC else HTTP).
  { intros q. unfold _make_log_exporter. by case_bool_decide. }
  assert (Htrace : ∀ q, exp_transport (_make_trace_exporter endpoint headers q)
                        = if bool_decide (lower q = "grpc") then GRPC else HTTP).
  { intros q. unfold _make_trace_exporter. by case_bool_decide. }
  rewrite !Hlog, !Htrace.
  split; [case_bool_decide; naive_solver|].
  split; [case_bool_decide; naive_solver|].
  split; [case_bool_decide; naive_solver|].
  split; [case_bool_decide; naive_solver|].
  split; [apply lower_grpc|].
  do 4 (split; [by vm_compute|]).
  intros token min_level service_name service_namespace environment mirror
    origin w r res.
  destruct (init_run token endpoint min_level service_name
              service_namespace environment p mirror origin w)
    as (H1 & H2 & _).
  subst r res. cbv zeta in H2. by rewrite H1, H2.
Qed.

(** ** Frame: what leaves the facade's fields alone *)

Create HintDb frame.

Lemma frame_ret {A} (a : A) : frame (ret a).
Proof. by intros w. Qed.

Lemma frame_raise {A} (e : PyExc) : frame (@raise World A e).
Proof. by intros w. Qed.

Lemma frame_bind {A B} (c : M A) (k : A → M B) :
  frame c → (∀ a, frame (k a)) → frame (bind c k).
Proof.
  intros Hc Hk w. unfold bind. specialize (Hc w).
  destruct (c w) as [[a|e] w']; simpl in *; [|done].
  destruct (Hk a w') as [-> ->]. done.
Qed.

Lemma frame_called (c : Call) : frame (called c).
Proof. by intros w. Qed.

Lemma frame_external (c : Call) : frame (external c).
Proof. intros w. unfold external. by destruct (raises _ _ _). Qed.

Lemma frame_update_span (sp : nat) (f : SpanData → SpanData) :
  frame (update_span sp f).
Proof. by intros w. Qed.

Lemma frame_try_except {A} (c : M A) (catches : PyExc → bool)
    (h : PyExc → M A) :
  frame c → (∀ e, frame (h e)) → frame (try_except c catches h).
Proof.
  intros Hc Hh w. unfold try_except. specialize (Hc w).
  destruct (c w) as [[a|e] w']; simpl in *; [done|].
  destruct (catches e); [|done].
  specialize (Hh e (with_handling (Some e) w')).
  destruct (h e _) as [r w'']. simpl in *.
  destruct Hh as [-> ->]. done.
Qed.

Lemma frame_try_finally {A} (c : M A) (f : M unit) :
  frame c → frame f → frame (try_finally c f).
Proof.
  intros Hc Hf w. unfold try_finally. specialize (Hc w).
  destruct (c w) as [[a|e] w']; simpl in *;
    specialize (Hf w'); destruct (f w') as [[u|e'] w'']; simpl in *;
    by destruct Hf as [-> ->].
Qed.

Lemma frame_if {A} (b : bool) (c1 c2 : M A) :
  frame c1 → frame c2 → frame (if b then c1 else c2).
Proof. by destruct b. Qed.

#[local] Hint Resolve frame_ret frame_raise frame_called frame_external
  frame_update_span frame_if : frame.
#[local] Hint Extern 2 (frame (bind _ _)) =>
  apply frame_bind; [|intros ?] : frame.
#[local] Hint Extern 2 (frame (try_except _ _ _)) =>
  apply frame_try_except; [|intros ?] : frame.
#[local] Hint Extern 2 (frame (try_finally _ _)) =>
  apply frame_try_finally : frame.

Lemma frame_span_set_attribute sp key value :
  frame (span_set_attribute sp key value).
Proof. unfold span_set_attribute. auto with frame. Qed.

Lemma frame_span_set_status sp status : frame (span_set_status sp status).
Proof. unfold span_set_status. auto with frame. Qed.

Lemma frame_span_record_exception sp e : frame (span_record_exception sp e).
Proof. unfold span_record_exception. auto with frame. Qed.

Lemma frame_span_end sp : frame (span_end sp).
Proof. unfold span_end. auto with frame. Qed.

Lemma frame_span_is_recording sp : frame (span_is_recording sp).
Proof. intros w. unfold span_is_recording. by destruct (spans w !! sp). Qed.

Lemma frame_context_attach sp : frame (context_attach sp).
Proof.
  unfold context_attach. apply frame_bind; [auto with frame|].
  by intros _ w.
Qed.

Lemma frame_context_detach token : frame (context_detach token).
Proof.
  unfold context_detach. apply frame_bind; [auto with frame|].
  by intros _ w.
Qed.

#[local] Hint Resolve frame_span_set_attribute frame_span_set_status
  frame_span_record_exception frame_span_end frame_span_is_recording
  frame_context_attach frame_context_detach : frame.

Lemma frame_use_span {A} sp b1 b2 b3 (block : M A) :
  frame block → frame (use_span sp b1 b2 b3 block).
Proof. intros Hb. unfold use_span. auto 10 with frame. Qed.

Lemma frame_tracer_start_span t name kwargs :
  frame (tracer_start_span t name kwargs).
Proof.
  unfold tracer_start_span. apply frame_bind; [auto with frame|].
  by intros _ w.
Qed.

Lemma frame_log level message stacklevel exc_info kwargs :
  frame (LogzAI.log level message stacklevel exc_info kwargs).
Proof.
  intros w. unfold LogzAI.log. destruct (logger (self w)); [|done].
  apply frame_external.
Qed.

Lemma frame_call_log level message stacklevel exc_info kwargs :
  frame (LogzAI.call_log level message stacklevel exc_info kwargs).
Proof.
  unfold LogzAI.call_log. destruct (LogzAI.clashes kwargs);
    [apply frame_raise|apply frame_log].
Qed.

Lemma frame_start_span name kwargs : frame (LogzAI.start_span name kwargs).
Proof.
  intros w. unfold LogzAI.start_span. destruct (tracer (self w)); [|done].
  apply frame_tracer_start_span.
Qed.

Lemma frame_span {A} name kwargs (block : nat → M A) :
  (∀ sp, frame (block sp)) → frame (LogzAI.span name kwargs block).
Proof.
  intros Hb. unfold LogzAI.span.
  apply frame_bind; [apply frame_start_span|]. intros sp.
  apply frame_try_except; [by apply frame_use_span|].
  intros e. auto with frame.
Qed.

Lemma frame_shutdown : frame LogzAI.shutdown.
Proof.
  unfold LogzAI.shutdown. apply frame_bind.
  - intros w. destruct (log_provider (self w)); [|done].
    apply frame_try_except; [apply frame_external|auto with frame].
  - intros _ w. destruct (tracer_provider (self w)); [|done].
    apply frame_try_except; [apply frame_external|auto with frame].
Qed.

(** ** Shutdown *)

Lemma with_handling_restore (w : World) (h : option PyExc) :
  with_handling (handling w) (with_handling h w) = w.
Proof. by destruct w. Qed.

Lemma guarded_shutdown_run (c : Call) (w : World) :
  (∀ e, raises (library w) (journal w) c = Some e → exc_is_Exception e = true) →
  try_except (external c) Exception (λ _, ret tt) w
  = (Ok tt, with_journal (λ j, (j ++ [c])%list) w).
Proof.
  intros H. unfold try_except, external.
  destruct (raises (library w) (journal w) c) as [e|] eqn:He; [|done].
  unfold Exception. by rewrite (H e eq_refl).
Qed.

Lemma with_journal_app (l1 l2 : list Call) (w : World) :
  with_journal (λ j, (j ++ l2)%list) (with_journal (λ j, (j ++ l1)%list) w)
  = with_journal (λ j, (j ++ (l1 ++ l2))%list) w.
Proof. destruct w. unfold with_journal. simpl. by rewrite <- app_assoc. Qed.

Lemma with_journal_nil (w : World) : with_journal (λ j, (j ++ [])%list) w = w.
Proof. destruct w. unfold with_journal. simpl. by rewrite app_nil_r. Qed.

(** [shutdown] returns after having called [shutdown()] on each provider
    that is set, whatever [Exception] these calls raise. *)
Lemma shutdown_run (w : World) :
  shutdown_failures_are_Exceptions (library w) →
  LogzAI.shutdown w
  = (Ok tt, with_journal (λ j, (j ++ shutdown_calls (self w))%list) w).
Proof.
  intros H. unfold LogzAI.shutdown, bind, shutdown_calls.
  destruct (log_provider (self w)) as [lp|] eqn:Hlp.
  - unfold log_provider_shutdown.
    rewrite guarded_shutdown_run by (intros e; apply H).
    change (tracer_provider (self (with_journal _ w)))
      with (tracer_provider (self w)).
    destruct (tracer_provider (self w)) as [tp|] eqn:Htp.
    + unfold tracer_provider_shutdown.
      rewrite guarded_shutdown_run by (intros e; apply H).
      by rewrite with_journal_app.
    + done.
  - unfold ret at 1. simpl.
    destruct (tracer_provider (self w)) as [tp|] eqn:Htp.
    + unfold tracer_provider_shutdown.
      by rewrite guarded_shutdown_run by (intros e; apply H).
    + unfold ret. by rewrite with_journal_nil.
Qed.

(** The registry part of the spec's shutdown never raises. *)
Lemma drain_entries_ok (l : list PluginRegistry.PluginEntry)
    (s : PluginRegistry.State) :
  (PluginRegistry.drain_entries l s).1 = Ok tt.
Proof.
  revert s. induction l as [|en l IH]; intros s; [done|].
  simpl. unfold bind, PluginRegistry.run_cleanup.
  destruct (PluginRegistry.entry_cleanup en) as [c|]; simpl.
  - destruct (PluginRegistry.cleanup_run c _) as [r h]. simpl. apply IH.
  - apply IH.
Qed.




(** ** Operations before [init] *)

(** C3, as the code has it: before [init] the dispatcher [log], the
    leveled wrappers, [start_span] and the scoped helper [span] raise the
    [RuntimeError] that says the facade is not initialized, and change
    nothing (a wrapper whose keyword arguments name a parameter of [log]
    fails on the call itself, with a [TypeError]); [set_span_attribute]
    makes no such check and returns; [shutdown] finds no provider, does
    nothing and returns. *)
Theorem uninitialized_operations (w : World) :
  logger (self w) = None →
  tracer (self w) = None →
  log_provider (self w) = None →
  tracer_provider (self w) = None →
  exc_type_name not_initialized = "RuntimeError"
  ∧ exc_is_Exception not_initialized = true
  ∧ (∀ level message stacklevel exc_info kwargs,
       LogzAI.log level message stacklevel exc_info kwargs w
       = (Raise not_initialized, w))
  ∧ (∀ message exc_info kwargs,
       LogzAI.clashes kwargs = false →
       LogzAI.debug message exc_info kwargs w = (Raise not_initialized, w)
       ∧ LogzAI.info message exc_info kwargs w = (Raise not_initialized, w)
       ∧ LogzAI.warning message exc_info kwargs w = (Raise not_initialized, w)
       ∧ LogzAI.warn message exc_info kwargs w = (Raise not_initialized, w)
       ∧ LogzAI.error message exc_info kwargs w = (Raise not_initialized, w)
       ∧ LogzAI.critical message exc_info kwargs w = (Raise not_initialized, w)
       ∧ LogzAI.exception message kwargs w = (Raise not_initialized, w))
  ∧ (∀ name kwargs,
       LogzAI.start_span name kwargs w = (Raise not_initialized, w))
  ∧ (∀ A name kwargs (block : nat → M A),
       LogzAI.span name kwargs block w = (Raise not_initialized, w))
  ∧ (∀ sp key value,
       (LogzAI.set_span_attribute sp key value w).1 = Ok tt)
  ∧ LogzAI.shutdown w = (Ok tt, w).
Proof.
  intros Hlogger Htracer Hlp Htp.
  assert (Hlog : ∀ level message stacklevel exc_info kwargs,
             LogzAI.log level message stacklevel exc_info kwargs w
             = (Raise not_initialized, w)).
  { intros. unfold LogzAI.log. by rewrite Hlogger. }
  assert (Hstart : ∀ name kwargs,
             LogzAI.start_span name kwargs w = (Raise not_initialized, w)).
  { intros. unfold LogzAI.start_span. by rewrite Htracer. }
  split; [done|]. split; [done|]. split; [exact Hlog|]. split.
  { intros message exc_info kwargs Hk.
    unfold LogzAI.debug, LogzAI.info, LogzAI.warning, LogzAI.warn,
      LogzAI.error, LogzAI.critical, LogzAI.exception, LogzAI.call_log.
    rewrite Hk. by rewrite !Hlog. }
  split; [exact Hstart|]. split.
  { intros A name kwargs block. unfold LogzAI.span, bind.
    by rewrite Hstart. }
  split; [done|].
  unfold LogzAI.shutdown, bind. rewrite Hlp. unfold ret at 1. simpl.
  by rewrite Htp.
Qed.

(** Right after [logzai = LogzAI()] every hypothesis holds. *)
Lemma uninitialized_operations_witness :
  LogzAI.log INFO "hello" None None ∅ (fresh quiet_library)
  = (Raise not_initialized, fresh quiet_library)
  ∧ LogzAI.start_span "work" ∅ (fresh quiet_library)
    = (Raise not_initialized, fresh quiet_library)
  ∧ LogzAI.shutdown (fresh quiet_library) = (Ok tt, fresh quiet_library).
Proof.
  destruct (uninitialized_operations (fresh quiet_library)
              eq_refl eq_refl eq_refl eq_refl)
    as (_ & _ & Hlog & _ & Hstart & _ & _ & Hshutdown).
  split; [apply Hlog|]. split; [apply Hstart|exact Hshutdown].
Defined.

(** Against C3 as stated: before [init], [shutdown] and
    [set_span_attribute] return normally instead of raising. *)
Lemma shutdown_before_init_returns :
  LogzAI.shutdown (fresh quiet_library) = (Ok tt, fresh quiet_library)
  ∧ (LogzAI.set_span_attribute 0 "key" (VInt 1) (fresh quiet_library)).1
    = Ok tt.
Proof. by vm_compute. Qed.

(** ** The log dispatcher *)

Lemma exception_fields_lookup (lib : Library) (e : PyExc) (kwargs : Kwargs) :
  let extra := LogzAI.exception_fields lib e kwargs in
  extra !! "is_exception" = Some (VBool true)
  ∧ extra !! "exception.type" = Some (VStr (exc_type_name e))
  ∧ extra !! "exception.message" = Some (VStr (exc_str e))
  ∧ extra !! "exception.stacktrace"
    = Some (VStr (String.concat EmptyString (format_exception lib e)))
  ∧ (∀ k, k ∉ exception_keys → extra !! k = kwargs !! k).
Proof.
  unfold LogzAI.exception_fields. cbv zeta.
  split; [by simplify_map_eq|]. split; [by simplify_map_eq|].
  split; [by simplify_map_eq|]. split; [by simplify_map_eq|].
  intros k Hk. unfold exception_keys in Hk.
  rewrite !not_elem_of_cons in Hk. destruct Hk as (? & ? & ? & ? & _).
  by rewrite !lookup_insert_ne.
Qed.

(** C6, as the code has it: after [init], every [log] call hands the
    logger one record whose structured fields do not depend on
    [exc_info]; when an exception is being handled on the thread the fields
    are the caller's with [is_exception = true], [exception.type] (the
    type name), [exception.message] and [exception.stacktrace] (the joined
    formatted trace) set; when none is being handled they are the
    caller's fields unchanged, also for [exc_info = true]. *)
Theorem log_exception_fields (w : World) (lg : string) (level : Z)
    (message : string) (stacklevel : option Z) (kwargs : Kwargs) :
  logger (self w) = Some lg →
  ∃ extra : Kwargs,
    (∀ exc_info,
       journal (LogzAI.log level message stacklevel exc_info kwargs w).2
       = (journal w
          ++ [LoggerLog lg level message extra (default 2%Z stacklevel)])%list)
    ∧ match handling w with
      | Some e =>
          extra !! "is_exception" = Some (VBool true)
          ∧ extra !! "exception.type" = Some (VStr (exc_type_name e))
          ∧ extra !! "exception.message" = Some (VStr (exc_str e))
          ∧ extra !! "exception.stacktrace"
            = Some (VStr (String.concat EmptyString
                            (format_exception (library w) e)))
          ∧ (∀ k, k ∉ exception_keys → extra !! k = kwargs !! k)
      | None => extra = kwargs
      end.
Proof.
  intros Hlg.
  exists (match handling w with
          | Some e => LogzAI.exception_fields (library w) e kwargs
          | None => kwargs
          end).
  split.
  - intros exc_info. unfold LogzAI.log. rewrite Hlg.
    unfold logger_log, external.
    destruct (handling w) as [e|] eqn:He.
    + rewrite bool_decide_eq_true_2 by done. rewrite orb_true_r.
      by destruct (raises _ _ _).
    + rewrite bool_decide_eq_false_2 by (by intros []).
      rewrite orb_false_r. destruct (default false exc_info);
        by destruct (raises _ _ _).
  - destruct (handling w) as [e|]; [|done].
    apply exception_fields_lookup.
Qed.

(** In the handler of [ValueError("boom")], [log] with no [exc_info]
    attaches the four fields. *)
Lemma log_exception_fields_witness :
  ∃ extra : Kwargs,
    journal (LogzAI.log ERROR "failed" None None ∅
               (with_handling (Some (ValueError "boom"))
                  (initialized quiet_library))).2
    = [LoggerLog "logzai" ERROR "failed" extra 2]
    ∧ extra !! "exception.type" = Some (VStr "ValueError")
    ∧ extra !! "exception.message" = Some (VStr "boom")
    ∧ extra !! "is_exception" = Some (VBool true).
Proof.
  destruct (log_exception_fields
              (with_handling (Some (ValueError "boom"))
                 (initialized quiet_library))
              "logzai" ERROR "failed" None ∅ eq_refl)
    as (extra & Hj & H1 & H2 & H3 & _).
  exists extra. split; [exact (Hj None)|]. split; [exact H2|].
  split; [exact H3|exact H1].
Defined.

(** Against C6 as stated: with [exc_info] true and no exception being
    handled, the record gets none of the exception fields. *)
Lemma exc_info_without_exception_adds_nothing :
  journal (LogzAI.log ERROR "failed" None (Some true) ∅
             (initialized quiet_library)).2
  = [LoggerLog "logzai" ERROR "failed" ∅ 2]
  ∧ journal (LogzAI.error "failed" None ∅ (initialized quiet_library)).2
    = [LoggerLog "logzai" ERROR "failed" ∅ 3]
  ∧ (∅ : Kwargs) !! "exception.type" = None
  ∧ (∅ : Kwargs) !! "is_exception" = None.
Proof. by vm_compute. Qed.

(** ** The leveled wrappers *)

(** What the dispatcher hands to the logger. *)
Lemma log_journal (w : World) (lg : string) (level : Z) (message : string)
    (stacklevel : option Z) (exc_info : option bool) (kwargs : Kwargs) :
  logger (self w) = Some lg →
  ∃ extra : Kwargs,
    ∀ depth,
      journal (LogzAI.log level message depth exc_info kwargs w).2
      = (journal w ++ [LoggerLog lg level message extra (default 2%Z depth)])%list.
Proof.
  intros Hlg.
  exists (if default false exc_info || bool_decide (handling w ≠ None)
          then match handling w with
               | Some e => LogzAI.exception_fields (library w) e kwargs
               | None => kwargs
               end
          else kwargs).
  intros depth. unfold LogzAI.log. rewrite Hlg. unfold logger_log, external.
  by destruct (raises _ _ _).
Qed.

(** C8: each wrapper is the dispatcher [log] called with the wrapper's
    level, with [exc_info] as given and otherwise [True] for [error],
    [critical] and [exception] and [False] for [debug], [info], [warning]
    and [warn], and with a stack depth that is one more than the depth
    [log] uses when none is passed, so that the record the logger gets
    from a wrapper differs from the one of a direct [log] call in the
    depth alone, by one.  The keyword arguments must not name a parameter
    of [log]. *)
Theorem wrappers_forward (message : string) (exc_info : option bool)
    (kwargs : Kwargs) :
  LogzAI.clashes kwargs = false →
  ∃ depth : Z,
    (∀ w lg level ei,
       logger (self w) = Some lg →
       ∃ extra : Kwargs,
         journal (LogzAI.log level message None ei kwargs w).2
         = (journal w ++ [LoggerLog lg level message extra depth])%list
         ∧ journal (LogzAI.log level message (Some (depth + 1)%Z) ei kwargs w).2
           = (journal w
              ++ [LoggerLog lg level message extra (depth + 1)%Z])%list)
    ∧ LogzAI.debug message exc_info kwargs
      = LogzAI.log DEBUG message (Some (depth + 1)%Z)
          (Some (default false exc_info)) kwargs
    ∧ LogzAI.info message exc_info kwargs
      = LogzAI.log INFO message (Some (depth + 1)%Z)
          (Some (default false exc_info)) kwargs
    ∧ LogzAI.warning message exc_info kwargs
      = LogzAI.log WARNING message (Some (depth + 1)%Z)
          (Some (default false exc_info)) kwargs
    ∧ LogzAI.warn message exc_info kwargs
      = LogzAI.log WARNING message (Some (depth + 1)%Z)
          (Some (default false exc_info)) kwargs
    ∧ LogzAI.error message exc_info kwargs
      = LogzAI.log ERROR message (Some (depth + 1)%Z)
          (Some (default true exc_info)) kwargs
    ∧ LogzAI.critical message exc_info kwargs
      = LogzAI.log CRITICAL message (Some (depth + 1)%Z)
          (Some (default true exc_info)) kwargs
    ∧ LogzAI.exception message kwargs
      = LogzAI.log ERROR message (Some (depth + 1)%Z) (Some true) kwargs.
Proof.
  intros Hk. exists 2%Z. split.
  - intros w lg level ei Hlg.
    destruct (log_journal w lg level message None ei kwargs Hlg)
      as [extra Hextra].
    exists extra. split; [apply (Hextra None)|apply (Hextra (Some _))].
  - unfold LogzAI.debug, LogzAI.info, LogzAI.warning, LogzAI.warn,
      LogzAI.error, LogzAI.critical, LogzAI.exception, LogzAI.call_log.
    by rewrite Hk.
Qed.

(** [info("hello", user_id=1)] and [exception("hello", user_id=1)]: the
    fields name no parameter of [log], and the calls are forwarded. *)
Lemma wrappers_forward_witness :
  LogzAI.clashes {["user_id" := VInt 1]} = false
  ∧ ∃ depth : Z,
      LogzAI.info "hello" None {["user_id" := VInt 1]}
      = LogzAI.log INFO "hello" (Some (depth + 1)%Z) (Some false)
          {["user_id" := VInt 1]}
      ∧ LogzAI.exception "hello" {["user_id" := VInt 1]}
        = LogzAI.log ERROR "hello" (Some (depth + 1)%Z) (Some true)
            {["user_id" := VInt 1]}.
Proof.
  assert (Hk : LogzAI.clashes {["user_id" := VInt 1]} = false)
    by (vm_compute; reflexivity).
  split; [exact Hk|].
  destruct (wrappers_forward "hello" None {["user_id" := VInt 1]} Hk)
    as (depth & _ & _ & Hinfo & _ & _ & _ & _ & Hexception).
  exists depth. split; [exact Hinfo|exact Hexception].
Defined.

(** ** Configuration *)

(** C9, as the code has it: [init] validates nothing.  For every ingest
    token and endpoint, the empty ones included, it returns and sets the
    providers up with the values as given; and the fields it sets are
    assigned by [init] alone: the dispatcher, the wrappers, [start_span],
    the scoped helper (around a block that leaves them alone),
    [set_span_attribute] and [shutdown] leave every field of the facade as
    it is. *)
Theorem init_validates_nothing (ingest_token ingest_endpoint : string)
    (min_level : Z)
    (service_name service_namespace environment protocol : string)
    (mirror : bool) (origin : option string) (w : World) :
  let r := LogzAI.init ingest_token ingest_endpoint min_level service_name
             service_namespace environment protocol mirror origin w in
  let hs := init_headers ingest_token origin in
  let res := init_resource service_name service_namespace environment origin in
  r.1 = Ok tt
  ∧ log_provider (self r.2)
    = Some (mkLoggerProvider res
              [BatchLogRecordProcessor
                 (_make_log_exporter ingest_endpoint hs protocol)])
  ∧ tracer_provider (self r.2)
    = Some (mkTracerProvider res
              [BatchSpanProcessor
                 (_make_trace_exporter ingest_endpoint hs protocol)])
  ∧ In ("x-ingest-token", ingest_token) hs
  ∧ (∀ level message stacklevel exc_info kwargs w',
       self (LogzAI.log level message stacklevel exc_info kwargs w').2
       = self w')
  ∧ (∀ message exc_info kwargs w',
       self (LogzAI.debug message exc_info kwargs w').2 = self w'
       ∧ self (LogzAI.info message exc_info kwargs w').2 = self w'
       ∧ self (LogzAI.warning message exc_info kwargs w').2 = self w'
       ∧ self (LogzAI.warn message exc_info kwargs w').2 = self w'
       ∧ self (LogzAI.error message exc_info kwargs w').2 = self w'
       ∧ self (LogzAI.critical message exc_info kwargs w').2 = self w'
       ∧ self (LogzAI.exception message kwargs w').2 = self w')
  ∧ (∀ name kwargs w', self (LogzAI.start_span name kwargs w').2 = self w')
  ∧ (∀ A name kwargs (block : nat → M A) w',
       (∀ sp, frame (block sp)) →
       self (LogzAI.span name kwargs block w').2 = self w')
  ∧ (∀ sp key value w',
       self (LogzAI.set_span_attribute sp key value w').2 = self w')
  ∧ (∀ w', self (LogzAI.shutdown w').2 = self w').
Proof.
  intros r hs res.
  destruct (init_run ingest_token ingest_endpoint min_level service_name
              service_namespace environment protocol mirror origin w)
    as (H1 & H2 & _).
  fold r in H1, H2. cbv zeta in H2.
  split; [exact H1|]. rewrite H2. split; [done|]. split; [done|].
  split.
  { subst hs. unfold init_headers.
    destruct origin as [o|]; [case_bool_decide|]; by left. }
  split; [intros; apply frame_log|].
  split.
  { intros message exc_info kwargs w'.
    unfold LogzAI.debug, LogzAI.info, LogzAI.warning, LogzAI.warn,
      LogzAI.error, LogzAI.critical, LogzAI.exception.
    repeat split; apply frame_call_log. }
  split; [intros; apply frame_start_span|].
  split; [intros A name kwargs block w' Hb; by apply frame_span|].
  split; [intros; apply frame_span_set_attribute|].
  intros; apply frame_shutdown.
Qed.

(** Against C9 as stated: [init] with an empty token and an empty
    endpoint is accepted; the exporters get the target [/logs] and
    [/traces] and an empty [x-ingest-token]. *)
Lemma init_accepts_empty_token_and_endpoint :
  let r := LogzAI.init EmptyString EmptyString DEBUG "app" "default" "prod"
             "http" false None (fresh quiet_library) in
  r.1 = Ok tt
  ∧ log_provider (self r.2)
    = Some (mkLoggerProvider
              (mkResource [("service.name", "app");
                           ("service.namespace", "default");
                           ("deployment.environment", "prod")])
              [BatchLogRecordProcessor
                 (mkExporter HTTP Logs "/logs"
                    [("x-ingest-token", EmptyString)])])
  ∧ tracer_provider (self r.2)
    = Some (mkTracerProvider
              (mkResource [("service.name", "app");
                           ("service.namespace", "default");
                           ("deployment.environment", "prod")])
              [BatchSpanProcessor
                 (mkExporter HTTP Traces "/traces"
                    [("x-ingest-token", EmptyString)])]).
Proof. by vm_compute. Qed.

(** ** The scoped span helper *)

Lemma string_length_app (a b : string) :
  String.length (a +:+ b) = (String.length a + String.length b)%nat.
Proof. induction a as [|c a IH]; simpl; [done|by rewrite IH]. Qed.

Lemma prefixed_message_differs (a s : string) : a +:+ ": " +:+ s ≠ s.
Proof.
  intros H. apply (f_equal String.length) in H.
  rewrite !string_length_app in H. simpl in H. lia.
Qed.

Ltac world_simpl :=
  unfold with_self, with_spans, with_active_span, with_handling, with_journal,
    with_global_tracer_provider, with_loggers in *;
  simpl in *.

(** The state in which the block of [span] starts. *)
Lemma span_entry (w : World) (t : Tracer) (name : string) (kwargs : Kwargs) :
  tracer (self w) = Some t →
  raises (library w) (journal w) (TracerStartSpan name kwargs) = None →
  (sp <- LogzAI.start_span name kwargs ;; context_attach sp) w
  = (Ok (active_span w),
     mkWorld (self w)
       (spans w ++ [mkSpan name kwargs (active_span w) ∅
                      (mkStatus UNSET None) [] 0])%list
       (Some (length (spans w))) (handling w)
       (journal w ++ [TracerStartSpan name kwargs;
                      ContextAttach (length (spans w))])%list
       (global_tracer_provider w) (loggers w) (library w)).
Proof.
  intros Ht Hr. unfold bind, LogzAI.start_span. rewrite Ht.
  unfold tracer_start_span, bind, external. rewrite Hr. simpl.
  unfold context_attach, bind, called. world_simpl.
  by rewrite <- app_assoc.
Qed.

Lemma start_span_run (w : World) (t : Tracer) (name : string)
    (kwargs : Kwargs) :
  tracer (self w) = Some t →
  raises (library w) (journal w) (TracerStartSpan name kwargs) = None →
  LogzAI.start_span name kwargs w
  = (Ok (length (spans w)),
     mkWorld (self w)
       (spans w ++ [mkSpan name kwargs (active_span w) ∅
                      (mkStatus UNSET None) [] 0])%list
       (active_span w) (handling w)
       (journal w ++ [TracerStartSpan name kwargs])%list
       (global_tracer_provider w) (loggers w) (library w)).
Proof.
  intros Ht Hr. unfold LogzAI.start_span. rewrite Ht.
  unfold tracer_start_span, bind, external. rewrite Hr. by world_simpl.
Qed.

(** C4: a block entered through [span] that leaves the span open (not
    ended, its status not [OK]).  When the block raises [e], [e] reaches
    the caller unchanged and the span has received exactly one [end()].
    For an [e] that is an [Exception] the final status is error, with the
    description [use_span] gave it, the type name followed by the
    stringified [e]: the facade's own [set_status] with the stringified
    [e] alone comes after that [end()] and is not applied, so the final
    status is not the one the facade sets.  For an [e] outside
    [Exception] neither [use_span] nor the facade handles it: nothing is
    recorded and the status is untouched.  When the block returns, its
    value is returned and the span has received exactly one [end()], its
    status untouched.  Either way the ambient active span is the one from
    before. *)
Theorem span_block_exit {A} (w : World) (t : Tracer) (name : string)
    (kwargs : Kwargs) (block : nat → M A) (res : Res A) (wb : World)
    (db : SpanData) :
  tracer (self w) = Some t →
  raises (library w) (journal w) (TracerStartSpan name kwargs) = None →
  let sp := length (spans w) in
  block sp ((s <- LogzAI.start_span name kwargs ;; context_attach s) w).2
  = (res, wb) →
  spans wb !! sp = Some db →
  span_end_calls db = 0%nat →
  status_code (span_status db) ≠ OK →
  let r := LogzAI.span name kwargs block w in
  r.1 = res
  ∧ active_span r.2 = active_span w
  ∧ match res with
    | Raise e =>
        if exc_is_Exception e then
          spans r.2 !! sp = Some (failed_span db e)
          ∧ span_status (failed_span db e)
            ≠ mkStatus ERROR_STATUS (Some (exc_str e))
          ∧ journal r.2
            = (journal wb
               ++ [ContextDetach (active_span w);
                   SpanRecordException sp e;
                   SpanSetStatus sp
                     (mkStatus ERROR_STATUS
                        (Some (exc_type_name e +:+ ": " +:+ exc_str e)));
                   SpanEnd sp;
                   SpanSetStatus sp
                     (mkStatus ERROR_STATUS (Some (exc_str e)))])%list
        else
          spans r.2 !! sp = Some (closed_span db)
          ∧ journal r.2
            = (journal wb
               ++ [ContextDetach (active_span w); SpanEnd sp])%list
    | Ok _ =>
        spans r.2 !! sp = Some (closed_span db)
        ∧ journal r.2
          = (journal wb ++ [ContextDetach (active_span w); SpanEnd sp])%list
    end.
Proof.
  intros Ht Hr sp Hblock Hdb Hopen Hstatus r.
  rewrite (span_entry w t name kwargs Ht Hr) in Hblock. simpl in Hblock.
  assert (Hrun : ∃ wf, r = (res, wf)
            ∧ active_span wf = active_span w
            ∧ match res with
              | Raise e =>
                  if exc_is_Exception e then
                    spans wf !! sp = Some (failed_span db e)
                    ∧ journal wf
                      = (journal wb
                         ++ [ContextDetach (active_span w);
                             SpanRecordException sp e;
                             SpanSetStatus sp
                               (mkStatus ERROR_STATUS
                                  (Some (exc_type_name e +:+ ": "
                                         +:+ exc_str e)));
                             SpanEnd sp;
                             SpanSetStatus sp
                               (mkStatus ERROR_STATUS
                                  (Some (exc_str e)))])%list
                  else
                    spans wf !! sp = Some (closed_span db)
                    ∧ journal wf
                      = (journal wb
                         ++ [ContextDetach (active_span w); SpanEnd sp])%list
              | Ok _ =>
                  spans wf !! sp = Some (closed_span db)
                  ∧ journal wf
                    = (journal wb
                       ++ [ContextDetach (active_span w); SpanEnd sp])%list
              end).
  { subst r sp. unfold LogzAI.span, bind.
    rewrite (start_span_run w t name kwargs Ht Hr).
    unfold use_span, try_finally, try_except, bind, context_attach, called,
      bind.
    world_simpl. rewrite <- app_assoc. simpl.
    rewrite Hblock.
    destruct res as [a|e].
    - unfold context_detach, bind, called. world_simpl.
      eexists. split; [reflexivity|]. simpl. split; [done|]. split.
      + rewrite list_lookup_alter_eq, Hdb. simpl. unfold closed_span.
        by rewrite Hopen.
      + by rewrite <- app_assoc.
    - unfold context_detach, bind, called. world_simpl.
      unfold Exception.
      destruct (exc_is_Exception e) eqn:Hclass.
      + unfold span_is_recording. world_simpl.
        rewrite Hdb. unfold span_ended at 1. rewrite Hopen. simpl.
        rewrite Hclass.
        eexists. split; [reflexivity|]. simpl. split; [done|].
        split; [|by rewrite <- !app_assoc].
        rewrite !list_lookup_alter_eq, Hdb. simpl.
        unfold span_ended. rewrite Hopen. simpl.
        destruct (status_code (span_status db)) eqn:Hcode; try done;
          simpl; rewrite ?Hopen; simpl; done.
      + simpl. rewrite ?Hclass.
        eexists. split; [reflexivity|]. simpl. split; [done|]. split.
        * rewrite list_lookup_alter_eq, Hdb. simpl. unfold closed_span.
          by rewrite Hopen.
        * by rewrite <- app_assoc. }
  destruct Hrun as (wf & -> & Hactive & Hres). simpl.
  split; [done|]. split; [done|].
  destruct res as [a|e]; [done|].
  destruct (exc_is_Exception e); [|done].
  destruct Hres as [Hspan Hjournal]. split; [done|]. split; [|done].
  simpl. intros [=H]. by apply prefixed_message_differs in H.
Qed.

(** [with logzai.span("op"): raise ValueError("boom")] after [init]: the
    error reaches the caller, the span is ended once, and its status
    carries [ValueError: boom] where the facade sets [boom]. *)
Lemma span_block_exit_witness :
  let r := LogzAI.span "op" ∅ (λ _, raise (ValueError "boom"))
             (initialized quiet_library) in
  r.1 = (Raise (ValueError "boom") : Res unit)
  ∧ (span_status <$> spans r.2 !! 0%nat)
    = Some (mkStatus ERROR_STATUS (Some "ValueError: boom"))
  ∧ (span_end_calls <$> spans r.2 !! 0%nat) = Some 1%nat
  ∧ mkStatus ERROR_STATUS (Some "ValueError: boom")
    ≠ mkStatus ERROR_STATUS (Some "boom").
Proof.
  intros r.
  pose (db := mkSpan "op" ∅ None ∅ (mkStatus UNSET None) [] 0).
  assert (Hb : (λ _ : nat, @raise World unit (ValueError "boom")) 0%nat
                 ((s <- LogzAI.start_span "op" ∅ ;; context_attach s)
                    (initialized quiet_library)).2
               = (Raise (ValueError "boom"),
                  ((s <- LogzAI.start_span "op" ∅ ;; context_attach s)
                     (initialized quiet_library)).2)) by reflexivity.
  assert (Hdb : spans ((s <- LogzAI.start_span "op" ∅ ;; context_attach s)
                         (initialized quiet_library)).2 !! 0%nat = Some db)
    by (vm_compute; reflexivity).
  assert (Hst : status_code (span_status db) ≠ OK) by discriminate.
  destruct (span_block_exit (initialized quiet_library)
              (mkTracer "logzai"
                 (tracer_provider (self (initialized quiet_library))))
              "op" ∅ (λ _, raise (ValueError "boom"))
              (Raise (ValueError "boom")) _ db
              eq_refl eq_refl Hb Hdb eq_refl Hst)
    as (H1 & _ & H2 & H3 & _).
  fold r in H1, H2.
  change (length (spans (initialized quiet_library))) with 0%nat in H2.
  split; [exact H1|]. split; [by rewrite H2|]. split; [by rewrite H2|].
  exact H3.
Defined.

(** ** The plugin registry *)

Lemma find_remove (name : string) (l : list PluginRegistry.PluginEntry) :
  List.find (λ en, bool_decide (PluginRegistry.entry_name en = name))
    (PluginRegistry.remove name l) = None.
Proof.
  induction l as [|en l IH]; [done|]. simpl.
  case_bool_decide as Hn; simpl; [done|].
  by rewrite bool_decide_eq_false_2.
Qed.

Lemma find_snoc_absent (name : string)
    (l : list PluginRegistry.PluginEntry) (en : PluginRegistry.PluginEntry) :
  List.find (λ en, bool_decide (PluginRegistry.entry_name en = name)) l = None →
  PluginRegistry.entry_name en = name →
  List.find (λ en, bool_decide (PluginRegistry.entry_name en = name))
    (l ++ [en]) = Some en.
Proof.
  intros Hl Hen. induction l as [|en' l IH]; simpl in *.
  - by rewrite bool_decide_eq_true_2.
  - destruct (bool_decide _); [done|]. by apply IH.
Qed.


Lemma unregister_absent (q : string) (s : PluginRegistry.State) :
  PluginRegistry.lookup q s = None →
  PluginRegistry.unregister_plugin q s = (Ok tt, s).
Proof. intros H. unfold PluginRegistry.unregister_plugin. by rewrite H. Qed.

Lemma unregister_returns (q : string) (s : PluginRegistry.State) :
  (PluginRegistry.unregister_plugin q s).1 = Ok tt.
Proof.
  unfold PluginRegistry.unregister_plugin.
  destruct (PluginRegistry.lookup q s) as [en|]; [|done].
  by destruct (PluginRegistry.run_cleanup en s).
Qed.

Lemma unregister_lookup (q : string) (s : PluginRegistry.State) :
  PluginRegistry.lookup q (PluginRegistry.unregister_plugin q s).2 = None.
Proof.
  unfold PluginRegistry.unregister_plugin.
  destruct (PluginRegistry.lookup q s) as [en|] eqn:Hq; [|done].
  unfold PluginRegistry.run_cleanup.
  destruct (PluginRegistry.entry_cleanup en) as [c|]; simpl.
  - destruct (PluginRegistry.cleanup_run c _). apply find_remove.
  - apply find_remove.
Qed.

(** C1: a plugin [p] registered with an installer that returned the
    cleanup [C].  The first [unregister_plugin(p)] returns, invokes [C]
    once (one more invocation of [C] than before, the host state being what
    one run of [C] makes of it) and removes the entry, also when [C]
    raises; the second returns and leaves everything as it is, [C] not
    invoked again; and [unregister_plugin] on any name that is not
    registered returns and changes nothing. *)
Theorem unregister_plugin_once (facade : LogzAIBase)
    (s : PluginRegistry.State) (p : string)
    (installer : PluginRegistry.Installer) (config : PyVal)
    (C : PluginRegistry.Cleanup) (h1 : PluginRegistry.Host) :
  installer facade config
    (PluginRegistry.host (PluginRegistry.unregister_plugin p s).2)
  = (Ok (Some C), h1) →
  let r1 := PluginRegistry.plugin facade p installer config s in
  let r2 := PluginRegistry.unregister_plugin p r1.2 in
  let r3 := PluginRegistry.unregister_plugin p r2.2 in
  r1.1 = Ok tt
  ∧ PluginRegistry.lookup p r1.2
    = Some (PluginRegistry.mkEntry p config (Some C))
  ∧ r2.1 = Ok tt
  ∧ PluginRegistry.events r2.2
    = (PluginRegistry.events r1.2
       ++ [PluginRegistry.Invoked p (PluginRegistry.cleanup_id C);
           PluginRegistry.Removed p])%list
  ∧ PluginRegistry.host r2.2
    = (PluginRegistry.cleanup_run C (PluginRegistry.host r1.2)).2
  ∧ PluginRegistry.lookup p r2.2 = None
  ∧ r3 = (Ok tt, r2.2)
  ∧ (∀ q s', PluginRegistry.lookup q s' = None →
             PluginRegistry.unregister_plugin q s' = (Ok tt, s')).
Proof.
  intros Hinst r1 r2 r3.
  assert (Hr1 : r1 = (Ok tt,
            PluginRegistry.mkState
              (PluginRegistry.entries (PluginRegistry.unregister_plugin p s).2
               ++ [PluginRegistry.mkEntry p config (Some C)])%list
              h1
              (PluginRegistry.events (PluginRegistry.unregister_plugin p s).2
               ++ [PluginRegistry.Installed p])%list)).
  { subst r1. unfold PluginRegistry.plugin, bind.
    pose proof (unregister_returns p s) as Hu.
    destruct (PluginRegistry.unregister_plugin p s) as [u s0].
    simpl in Hu, Hinst. subst u. by rewrite Hinst. }
  assert (Hl1 : PluginRegistry.lookup p r1.2
                = Some (PluginRegistry.mkEntry p config (Some C))).
  { rewrite Hr1. unfold PluginRegistry.lookup. simpl.
    apply find_snoc_absent; [|done]. apply unregister_lookup. }
  assert (Hr2 : r2 = (Ok tt,
            PluginRegistry.mkState
              (PluginRegistry.remove p (PluginRegistry.entries r1.2))
              (PluginRegistry.cleanup_run C (PluginRegistry.host r1.2)).2
              (PluginRegistry.events r1.2
               ++ [PluginRegistry.Invoked p (PluginRegistry.cleanup_id C);
                   PluginRegistry.Removed p])%list)).
  { subst r2. unfold PluginRegistry.unregister_plugin. rewrite Hl1.
    unfold PluginRegistry.run_cleanup. simpl.
    destruct (PluginRegistry.cleanup_run C _) as [u h]. simpl.
    by rewrite <- app_assoc. }
  assert (Hl2 : PluginRegistry.lookup p r2.2 = None).
  { subst r2. apply unregister_lookup. }
  split; [by rewrite Hr1|]. split; [exact Hl1|].
  split; [by rewrite Hr2|]. split; [by rewrite Hr2|].
  split; [by rewrite Hr2|]. split; [exact Hl2|].
  split; [by apply unregister_absent|].
  intros q s'. apply unregister_absent.
Qed.

(** A plugin whose cleanup raises: registered, unregistered twice. *)
Lemma unregister_plugin_once_witness :
  let C := PluginRegistry.mkCleanup 7
             (λ h, (Raise (ValueError "cleanup failed"), h)) in
  let installer : PluginRegistry.Installer :=
    λ _ _ h, (Ok (Some C), h ⊎ {[+ "info" +]}) in
  let r1 := PluginRegistry.plugin __init__ "p" installer VNone
              PluginRegistry.empty in
  let r2 := PluginRegistry.unregister_plugin "p" r1.2 in
  let r3 := PluginRegistry.unregister_plugin "p" r2.2 in
  r2.1 = Ok tt
  ∧ PluginRegistry.events r2.2
    = [PluginRegistry.Installed "p"; PluginRegistry.Invoked "p" 7;
       PluginRegistry.Removed "p"]
  ∧ PluginRegistry.lookup "p" r2.2 = None
  ∧ r3 = (Ok tt, r2.2).
Proof.
  intros C installer r1 r2 r3.
  destruct (unregister_plugin_once __init__ PluginRegistry.empty "p"
              installer VNone C (∅ ⊎ {[+ "info" +]}) eq_refl)
    as (_ & _ & H2 & Hev & _ & Hl & H3 & _).
  split; [exact H2|]. split; [exact Hev|]. split; [exact Hl|exact H3].
Defined.

(** *** The life cycle of an entry *)









(** *** The hooks in place *)

















(** ** Further properties of the exporter factories *)

Lemma slashes_add (a b : nat) :
  slashes (a + b) = slashes a +:+ slashes b.
Proof. induction a as [|a IH]; simpl; [done|by rewrite IH]. Qed.

Lemma string_app_assoc (a b c : string) : (a +:+ b) +:+ c = a +:+ (b +:+ c).
Proof.
  induction a as [|x a IH]; [done|].
  change (String x ((a +:+ b) +:+ c) = String x (a +:+ (b +:+ c))).
  by rewrite IH.
Qed.

Lemma rstrip_app_slashes (s : string) (k : nat) :
  rstrip [slash] (s +:+ slashes k) = rstrip [slash] s.
Proof.
  destruct (rstrip_slash_decompose s) as (k0 & Hs & Hend).
  destruct (rstrip_slash_decompose (s +:+ slashes k)) as (k1 & Hsk & Hend1).
  eapply stripped_base_unique; [|exact Hend1|exact Hend].
  rewrite <- Hsk. rewrite Hs at 1.
  rewrite string_app_assoc, <- slashes_add. reflexivity.
Qed.

(** X1: trailing slashes on the endpoint make no difference to the
    exporters: the endpoint with any number of slashes appended gives the
    very same log exporter and trace exporter, and an endpoint that
    consists of slashes only (the empty endpoint included) gives the
    targets [/logs] and [/traces]. *)
Theorem exporters_ignore_trailing_slashes (endpoint : string) (k : nat)
    (headers : StrDict) (protocol : string) :
  _make_log_exporter (endpoint +:+ slashes k) headers protocol
  = _make_log_exporter endpoint headers protocol
  ∧ _make_trace_exporter (endpoint +:+ slashes k) headers protocol
    = _make_trace_exporter endpoint headers protocol
  ∧ exp_endpoint (_make_log_exporter (slashes k) headers protocol) = "/logs"
  ∧ exp_endpoint (_make_trace_exporter (slashes k) headers protocol)
    = "/traces".
Proof.
  assert (Hk : rstrip [slash] (slashes k) = EmptyString).
  { change (slashes k) with (EmptyString +:+ slashes k).
    by rewrite rstrip_app_slashes. }
  unfold _make_log_exporter, _make_trace_exporter.
  rewrite rstrip_app_slashes, Hk.
  repeat split; by case_bool_decide.
Qed.

(** ** Further properties of [init] *)

(** What [init] does to the process-wide state of [logging] and
    [opentelemetry.trace]. *)
Lemma init_globals (ingest_token ingest_endpoint : string) (min_level : Z)
    (service_name service_namespace environment protocol : string)
    (mirror : bool) (origin : option string) (w : World) :
  let r := LogzAI.init ingest_token ingest_endpoint min_level service_name
             service_namespace environment protocol mirror origin w in
  let hs := init_headers ingest_token origin in
  let res := init_resource service_name service_namespace environment origin in
  let tp := mkTracerProvider res
              [BatchSpanProcessor
                 (_make_trace_exporter ingest_endpoint hs protocol)] in
  let lp := mkLoggerProvider res
              [BatchLogRecordProcessor
                 (_make_log_exporter ingest_endpoint hs protocol)] in
  global_tracer_provider r.2 = Some (default tp (global_tracer_provider w))
  ∧ loggers r.2 !! "logzai"
    = Some (mkLoggerObj min_level
              (handlers_of w "logzai"
               ++ LoggingHandler NOTSET lp
                  :: (if mirror
                      then [StreamHandler min_level LogzAI.console_format]
                      else []))%list
              false)
  ∧ (∀ n, n ≠ "logzai" → loggers r.2 !! n = loggers w !! n)
  ∧ active_span r.2 = active_span w
  ∧ library r.2 = library w.
Proof.
  unfold LogzAI.init, init_headers, init_resource, truthy, handlers_of.
  destruct origin as [o|]; simpl;
    [destruct (bool_decide (o = EmptyString)) eqn:Ho; simpl|];
    unfold bind, set_tracer_provider, get_tracer, getLogger, setLevel,
      addHandler, set_propagate, update_logger, ret; simpl;
    destruct (global_tracer_provider w) eqn:Hg; simpl;
    destruct (loggers w !! "logzai") as [l|] eqn:Hl; simpl;
    destruct mirror; simpl; rewrite ?Hg;
    (split; [done|]);
    (split; [rewrite !lookup_alter_eq, ?lookup_insert_eq, ?Hl; simpl;
             by rewrite <- ?app_assoc|]);
    (split; [|done]); intros n Hn;
    by rewrite !lookup_alter_ne, ?lookup_insert_ne by done.
Qed.


(** X2: the origin is sent and recorded only when it is a non-empty
    string.  [init] with [origin=""] is [init] with [origin=None]: both
    exporters get the one header [x-ingest-token] and the resource has the
    three service attributes; with a non-empty origin [o] both exporters
    get [x-origin: o] after the token and the resource gets [origin: o]
    last. *)
Theorem init_origin (ingest_token ingest_endpoint : string) (min_level : Z)
    (service_name service_namespace environment protocol : string)
    (mirror : bool) (o : string) (w : World) :
  let run := λ origin,
    LogzAI.init ingest_token ingest_endpoint min_level service_name
      service_namespace environment protocol mirror origin w in
  let base := [("service.name", service_name);
               ("service.namespace", service_namespace);
               ("deployment.environment", environment)] in
  let attrs_of := λ s : LogzAIBase,
    (resource_attributes ∘ lp_resource <$> log_provider s,
     resource_attributes ∘ tp_resource <$> tracer_provider s) in
  run (Some EmptyString) = run None
  ∧ exp_headers <$> log_exporters (self (run None).2)
    = [[("x-ingest-token", ingest_token)]]
  ∧ exp_headers <$> trace_exporters (self (run None).2)
    = [[("x-ingest-token", ingest_token)]]
  ∧ attrs_of (self (run None).2) = (Some base, Some base)
  ∧ (o ≠ EmptyString →
     exp_headers <$> log_exporters (self (run (Some o)).2)
     = [[("x-ingest-token", ingest_token); ("x-origin", o)]]
     ∧ exp_headers <$> trace_exporters (self (run (Some o)).2)
       = [[("x-ingest-token", ingest_token); ("x-origin", o)]]
     ∧ attrs_of (self (run (Some o)).2)
       = (Some (base ++ [("origin", o)])%list,
          Some (base ++ [("origin", o)])%list)).
Proof.
  intros run base attrs_of.
  assert (Hexp : ∀ origin,
            self (run origin).2
            = mkLogzAI
                (Some (mkLoggerProvider
                         (init_resource service_name service_namespace
                            environment origin)
                         [BatchLogRecordProcessor
                            (_make_log_exporter ingest_endpoint
                               (init_headers ingest_token origin) protocol)]))
                (Some (mkTracerProvider
                         (init_resource service_name service_namespace
                            environment origin)
                         [BatchSpanProcessor
                            (_make_trace_exporter ingest_endpoint
                               (init_headers ingest_token origin) protocol)]))
                (Some "logzai")
                (Some (mkTracer "logzai"
                         (Some (default
                                  (mkTracerProvider
                                     (init_resource service_name
                                        service_namespace environment origin)
                                     [BatchSpanProcessor
                                        (_make_trace_exporter ingest_endpoint
                                           (init_headers ingest_token origin)
                                           protocol)])
                                  (global_tracer_provider w)))))
                mirror).
  { intros origin. subst run. cbv beta.
    by destruct (init_run ingest_token ingest_endpoint min_level service_name
                   service_namespace environment protocol mirror origin w)
      as (_ & -> & _). }
  assert (Hh : ∀ e hs p,
            exp_headers (_make_log_exporter e hs p) = hs
            ∧ exp_headers (_make_trace_exporter e hs p) = hs).
  { intros e hs p. unfold _make_log_exporter, _make_trace_exporter.
    by split; case_bool_decide. }
  split; [reflexivity|].
  rewrite Hexp. unfold log_exporters, trace_exporters, attrs_of. simpl.
  rewrite (proj1 (Hh _ _ _)), (proj2 (Hh _ _ _)).
  split; [done|]. split; [done|]. split; [done|].
  intros Ho. rewrite Hexp. simpl.
  rewrite (proj1 (Hh _ _ _)), (proj2 (Hh _ _ _)).
  unfold init_headers, init_resource.
  by rewrite bool_decide_eq_false_2 by done.
Qed.

(** X3: what [init] leaves on the logger [logzai]: its level is
    [min_level], it does not propagate, and to the handlers it had it has
    gained a [LoggingHandler] of level [NOTSET] on the new logger provider,
    followed by a console handler of level [min_level] exactly when
    [mirror_to_console] is set.  Handlers are only ever added, so an
    [init] on an already initialized process leaves the earlier handlers
    in place next to the new ones; no other logger is touched. *)
Theorem init_configures_logger (ingest_token ingest_endpoint : string)
    (min_level : Z)
    (service_name service_namespace environment protocol : string)
    (mirror : bool) (origin : option string) (w : World) :
  let r := LogzAI.init ingest_token ingest_endpoint min_level service_name
             service_namespace environment protocol mirror origin w in
  ∃ lp,
    log_provider (self r.2) = Some lp
    ∧ logger (self r.2) = Some "logzai"
    ∧ mirror_to_console (self r.2) = mirror
    ∧ loggers r.2 !! "logzai"
      = Some (mkLoggerObj min_level
                (handlers_of w "logzai"
                 ++ LoggingHandler NOTSET lp
                    :: (if mirror
                        then [StreamHandler min_level LogzAI.console_format]
                        else []))%list
                false)
    ∧ (∀ n, n ≠ "logzai" → loggers r.2 !! n = loggers w !! n).
Proof.
  intros r.
  destruct (init_run ingest_token ingest_endpoint min_level service_name
              service_namespace environment protocol mirror origin w)
    as (_ & Hself & _).
  destruct (init_globals ingest_token ingest_endpoint min_level service_name
              service_namespace environment protocol mirror origin w)
    as (_ & Hlg & Hother & _).
  fold r in Hself, Hlg, Hother. cbv zeta in Hself, Hlg.
  eexists. rewrite Hself. simpl.
  split; [reflexivity|]. split; [done|]. split; [done|].
  split; [exact Hlg|exact Hother].
Qed.

(** X4: the tracer the facade uses comes from the process-wide tracer
    provider, which is set once.  After [init] the facade's tracer is a
    tracer of the process-wide provider; that is the provider [init] has
    just built only if none was set before, and after a second [init] the
    facade holds the second provider in [tracer_provider] while its tracer
    is still one of the provider that was process-wide after the first. *)
Theorem init_tracer_set_once (token1 endpoint1 : string) (level1 : Z)
    (name1 namespace1 environment1 protocol1 : string) (mirror1 : bool)
    (origin1 : option string)
    (token2 endpoint2 : string) (level2 : Z)
    (name2 namespace2 environment2 protocol2 : string) (mirror2 : bool)
    (origin2 : option string) (w : World) :
  let r1 := LogzAI.init token1 endpoint1 level1 name1 namespace1
              environment1 protocol1 mirror1 origin1 w in
  let r2 := LogzAI.init token2 endpoint2 level2 name2 namespace2
              environment2 protocol2 mirror2 origin2 r1.2 in
  let tp1 := mkTracerProvider
               (init_resource name1 namespace1 environment1 origin1)
               [BatchSpanProcessor
                  (_make_trace_exporter endpoint1
                     (init_headers token1 origin1) protocol1)] in
  let tp2 := mkTracerProvider
               (init_resource name2 namespace2 environment2 origin2)
               [BatchSpanProcessor
                  (_make_trace_exporter endpoint2
                     (init_headers token2 origin2) protocol2)] in
  tracer_provider (self r1.2) = Some tp1
  ∧ global_tracer_provider r1.2
    = Some (default tp1 (global_tracer_provider w))
  ∧ tracer (self r1.2)
    = Some (mkTracer "logzai" (global_tracer_provider r1.2))
  ∧ tracer_provider (self r2.2) = Some tp2
  ∧ global_tracer_provider r2.2 = global_tracer_provider r1.2
  ∧ tracer (self r2.2)
    = Some (mkTracer "logzai" (global_tracer_provider r1.2)).
Proof.
  intros r1 r2 tp1 tp2.
  destruct (init_run token1 endpoint1 level1 name1 namespace1 environment1
              protocol1 mirror1 origin1 w) as (_ & Hs1 & _).
  destruct (init_globals token1 endpoint1 level1 name1 namespace1
              environment1 protocol1 mirror1 origin1 w) as (Hg1 & _).
  destruct (init_run token2 endpoint2 level2 name2 namespace2 environment2
              protocol2 mirror2 origin2 r1.2) as (_ & Hs2 & _).
  destruct (init_globals token2 endpoint2 level2 name2 namespace2
              environment2 protocol2 mirror2 origin2 r1.2) as (Hg2 & _).
  fold r1 in Hs1, Hg1. fold r2 in Hs2, Hg2.
  cbv zeta in Hs1, Hg1, Hs2, Hg2. fold tp1 in Hs1, Hg1. fold tp2 in Hs2, Hg2.
  rewrite Hs1, Hs2, Hg2, Hg1. simpl. done.
Qed.

(** ** Further properties of [log] and [shutdown] *)

(** [log] on an initialized facade, in full. *)
Lemma log_run (w : World) (lg : string) (level : Z) (message : string)
    (stacklevel : option Z) (exc_info : option bool) (kwargs : Kwargs) :
  logger (self w) = Some lg →
  let c := LoggerLog lg level message
             (if default false exc_info || bool_decide (handling w ≠ None)
              then match handling w with
                   | Some e => LogzAI.exception_fields (library w) e kwargs
                   | None => kwargs
                   end
              else kwargs)
             (default 2%Z stacklevel) in
  LogzAI.log level message stacklevel exc_info kwargs w
  = (match raises (library w) (journal w) c with
     | Some e => Raise e
     | None => Ok tt
     end,
     with_journal (λ j, (j ++ [c])%list) w).
Proof.
  intros Hlg c. unfold LogzAI.log. rewrite Hlg.
  unfold logger_log, external. fold c.
  by destruct (raises (library w) (journal w) c).
Qed.

(** X5: after [init], [log] makes one call on the logger and nothing
    else: whatever that call raises (a [KeyError] for a field that
    clashes with a record attribute, say) reaches the caller unchanged,
    and it returns when the call returns; the facade's fields, the spans,
    the ambient span, the loggers and the exception being handled are as
    before. *)
Theorem log_forwards_once (w : World) (lg : string) (level : Z)
    (message : string) (stacklevel : option Z) (exc_info : option bool)
    (kwargs : Kwargs) :
  logger (self w) = Some lg →
  let r := LogzAI.log level message stacklevel exc_info kwargs w in
  ∃ extra : Kwargs,
    let c := LoggerLog lg level message extra (default 2%Z stacklevel) in
    journal r.2 = (journal w ++ [c])%list
    ∧ r.1 = match raises (library w) (journal w) c with
            | Some e => Raise e
            | None => Ok tt
            end
    ∧ self r.2 = self w
    ∧ spans r.2 = spans w
    ∧ active_span r.2 = active_span w
    ∧ loggers r.2 = loggers w
    ∧ handling r.2 = handling w.
Proof.
  intros Hlg r. subst r. unfold LogzAI.log. rewrite Hlg.
  unfold logger_log, external. eexists. cbv zeta.
  destruct (raises (library w) (journal w) _) eqn:He; simpl;
    (split; [reflexivity|]); by rewrite He.
Qed.


Lemma log_forwards_once_witness :
  ∃ extra : Kwargs,
    journal (LogzAI.log INFO "hello" None None ∅
               (initialized quiet_library)).2
    = [LoggerLog "logzai" INFO "hello" extra 2]
    ∧ (LogzAI.log INFO "hello" None None ∅ (initialized quiet_library)).1
      = Ok tt.
Proof.
  destruct (log_forwards_once (initialized quiet_library) "logzai" INFO
              "hello" None None ∅ eq_refl)
    as (extra & Hj & Hr & _).
  exists extra. split; [exact Hj|exact Hr].
Defined.

(** X6: a [log] call made in an [except] clause records the exception
    that clause caught, whatever [exc_info] says, and the fields do not
    leak: once the clause is left (no exception being handled around it),
    the next [log] call passes the caller's fields unchanged. *)
Theorem log_in_handler (w w1 : World) (c : M unit) (catches : PyExc → bool)
    (e : PyExc) (lg : string) (level : Z) (message : string)
    (stacklevel : option Z) (exc_info : option bool) (kwargs : Kwargs) :
  c w = (Raise e, w1) →
  catches e = true →
  logger (self w1) = Some lg →
  handling w1 = None →
  let r := try_except c catches
             (λ _, LogzAI.log level message stacklevel exc_info kwargs) w in
  let r' := LogzAI.log level message stacklevel exc_info kwargs r.2 in
  journal r.2
  = (journal w1
     ++ [LoggerLog lg level message
           (LogzAI.exception_fields (library w1) e kwargs)
           (default 2%Z stacklevel)])%list
  ∧ handling r.2 = None
  ∧ journal r'.2
    = (journal r.2
       ++ [LoggerLog lg level message kwargs (default 2%Z stacklevel)])%list.
Proof.
  intros Hc Hcatch Hlg Hh r r'.
  assert (Hr : r.2
            = with_journal
                (λ j, (j ++ [LoggerLog lg level message
                               (LogzAI.exception_fields (library w1) e kwargs)
                               (default 2%Z stacklevel)])%list) w1).
  { subst r. unfold try_except. rewrite Hc, Hcatch.
    rewrite (log_run (with_handling (Some e) w1) lg) by exact Hlg.
    cbv zeta. simpl. rewrite orb_true_r.
    destruct w1; simpl in *. by subst. }
  subst r'. rewrite Hr. split; [done|]. split; [done|].
  rewrite (log_run _ lg) by exact Hlg. cbv zeta. simpl. rewrite Hh.
  rewrite bool_decide_eq_false_2 by (by intros []).
  rewrite orb_false_r. by destruct (default false exc_info).
Qed.

(** [try: raise ValueError("boom") except Exception: logzai.log(INFO,
    "failed")], then [logzai.log(INFO, "failed")] again. *)
Lemma log_in_handler_witness :
  let w := initialized quiet_library in
  let r := try_except (raise (ValueError "boom")) Exception
             (λ _, LogzAI.log INFO "failed" None None ∅) w in
  journal r.2
  = [LoggerLog "logzai" INFO "failed"
       (LogzAI.exception_fields quiet_library (ValueError "boom") ∅) 2]
  ∧ journal (LogzAI.log INFO "failed" None None ∅ r.2).2
    = (journal r.2 ++ [LoggerLog "logzai" INFO "failed" ∅ 2])%list.
Proof.
  intros w r.
  destruct (log_in_handler w w (raise (ValueError "boom")) Exception
              (ValueError "boom") "logzai" INFO "failed" None None ∅
              eq_refl eq_refl eq_refl eq_refl)
    as (H1 & _ & H3).
  split; [exact H1|exact H3].
Defined.

(** X7: [shutdown] catches [Exception] only.  When closing the logger
    provider raises something that is no [Exception] (a
    [KeyboardInterrupt] during the flush), [shutdown] raises it and the
    tracer provider is not closed at all. *)
Theorem shutdown_lets_interrupts_through (w : World) (lp : LoggerProvider)
    (e : PyExc) :
  log_provider (self w) = Some lp →
  raises (library w) (journal w) LoggerProviderShutdown = Some e →
  exc_is_Exception e = false →
  (LogzAI.shutdown w).1 = Raise e
  ∧ journal (LogzAI.shutdown w).2
    = (journal w ++ [LoggerProviderShutdown])%list.
Proof.
  intros Hlp He Hexc. unfold LogzAI.shutdown, bind. rewrite Hlp.
  unfold log_provider_shutdown, try_except, external. rewrite He.
  unfold Exception. by rewrite Hexc.
Qed.

Lemma shutdown_lets_interrupts_through_witness :
  (LogzAI.shutdown (initialized interrupted_library)).1
  = Raise KeyboardInterrupt
  ∧ journal (LogzAI.shutdown (initialized interrupted_library)).2
    = [LoggerProviderShutdown].
Proof.
  pose (w := initialized interrupted_library).
  assert (Hlp : ∃ lp, log_provider (self w) = Some lp) by (by eexists).
  destruct Hlp as [lp Hlp].
  destruct (shutdown_lets_interrupts_through w lp KeyboardInterrupt
              Hlp eq_refl eq_refl) as (H1 & H2).
  split; [exact H1|]. fold w. rewrite H2. reflexivity.
Defined.

(** X8: [shutdown] does not take the facade back to the state before
    [init]: it leaves every field as it is, so a [log] or [start_span]
    made after it still goes to the logger and the tracer of the closed
    providers instead of failing as not initialized. *)
Theorem usable_after_shutdown (w : World) (lg : string) (t : Tracer)
    (level : Z) (message : string) (stacklevel : option Z)
    (exc_info : option bool) (kwargs : Kwargs) (name : string)
    (skwargs : Kwargs) :
  logger (self w) = Some lg →
  tracer (self w) = Some t →
  shutdown_failures_are_Exceptions (library w) →
  let w' := (LogzAI.shutdown w).2 in
  self w' = self w
  ∧ (∃ extra,
       journal (LogzAI.log level message stacklevel exc_info kwargs w').2
       = (journal w ++ shutdown_calls (self w)
          ++ [LoggerLog lg level message extra (default 2%Z stacklevel)])%list)
  ∧ journal (LogzAI.start_span name skwargs w').2
    = (journal w ++ shutdown_calls (self w)
       ++ [TracerStartSpan name skwargs])%list.
Proof.
  intros Hlg Ht Hlib w'. subst w'. rewrite (shutdown_run w Hlib). simpl.
  split; [done|]. split.
  - destruct (log_journal
                (with_journal (λ j, (j ++ shutdown_calls (self w))%list) w)
                lg level message stacklevel exc_info kwargs Hlg)
      as [extra Hextra].
    exists extra. rewrite (Hextra stacklevel). simpl.
    by rewrite <- app_assoc.
  - unfold LogzAI.start_span. simpl. rewrite Ht.
    unfold tracer_start_span, bind, external. simpl.
    destruct (raises _ _ _); simpl; by rewrite <- app_assoc.
Qed.

Lemma usable_after_shutdown_witness :
  journal (LogzAI.start_span "work" ∅
             (LogzAI.shutdown (initialized failing_library)).2).2
  = [LoggerProviderShutdown; TracerProviderShutdown;
     TracerStartSpan "work" ∅].
Proof.
  pose (w := initialized failing_library).
  assert (H : shutdown_failures_are_Exceptions (library w)).
  { intros j e. split; intros He; vm_compute in He; by inversion He. }
  assert (Ht : ∃ t, tracer (self w) = Some t) by (by eexists).
  destruct Ht as [t Ht].
  destruct (usable_after_shutdown w "logzai" t INFO "hello" None None ∅
              "work" ∅ eq_refl Ht H) as (_ & _ & Hs).
  fold w. rewrite Hs. vm_compute. reflexivity.
Defined.

(** X9: the whole life of the facade in one run.  [init(...)], then
    [info(message, **fields)] outside any exception handler, then
    [shutdown()]: when the logger accepts the record, the three calls
    return and what has reached the collaborators is one record on the
    logger [logzai], of level [INFO], depth 3 and with the caller's
    fields and no others, followed by the shutdown of the logger provider
    and then of the tracer provider. *)
Theorem init_info_shutdown (ingest_token ingest_endpoint : string)
    (min_level : Z)
    (service_name service_namespace environment protocol : string)
    (mirror : bool) (origin : option string) (message : string)
    (kwargs : Kwargs) (w : World) :
  handling w = None →
  LogzAI.clashes kwargs = false →
  raises (library w) (journal w) (LoggerLog "logzai" INFO message kwargs 3)
  = None →
  shutdown_failures_are_Exceptions (library w) →
  let r := (LogzAI.init ingest_token ingest_endpoint min_level service_name
              service_namespace environment protocol mirror origin ;;
            LogzAI.info message None kwargs ;;
            LogzAI.shutdown) w in
  r.1 = Ok tt
  ∧ journal r.2
    = (journal w
       ++ [LoggerLog "logzai" INFO message kwargs 3;
           LoggerProviderShutdown; TracerProviderShutdown])%list.
Proof.
  intros Hh Hk Hraise Hlib r.
  pose proof (init_run ingest_token ingest_endpoint min_level service_name
                service_namespace environment protocol mirror origin w)
    as (Hok & Hself & Hj & _ & Hh').
  pose proof (init_globals ingest_token ingest_endpoint min_level service_name
                service_namespace environment protocol mirror origin w)
    as (_ & _ & _ & _ & Hlib').
  cbv zeta in Hok, Hself, Hj, Hh', Hlib'.
  assert (Hrun : ∃ wf, r = (Ok tt, wf)
            ∧ journal wf
              = (journal w
                 ++ [LoggerLog "logzai" INFO message kwargs 3;
                     LoggerProviderShutdown; TracerProviderShutdown])%list).
  { subst r. unfold bind at 1.
    destruct (LogzAI.init _ _ _ _ _ _ _ _ _ w) as [u w0]. simpl in *.
    subst u. unfold bind at 1.
    unfold LogzAI.info, LogzAI.call_log. rewrite Hk.
    assert (Hlg : logger (self w0) = Some "logzai") by (by rewrite Hself).
    rewrite (log_run w0 "logzai") by exact Hlg. cbv zeta. simpl.
    rewrite Hh', Hh. rewrite bool_decide_eq_false_2 by (by intros []).
    simpl. rewrite Hlib', Hj, Hraise.
    rewrite shutdown_run by (simpl; by rewrite Hlib').
    eexists. split; [reflexivity|].
    simpl. rewrite Hself, Hj. unfold shutdown_calls. simpl.
    by rewrite <- app_assoc. }
  destruct Hrun as (wf & -> & Hwf). by split.
Qed.

Lemma init_info_shutdown_witness :
  journal ((LogzAI.init "token" "http://localhost:4318/" DEBUG "svc"
              "default" "prod" "http" false None ;;
            LogzAI.info "hello" None {["user_id" := VInt 1]} ;;
            LogzAI.shutdown) (fresh quiet_library)).2
  = [LoggerLog "logzai" INFO "hello" {["user_id" := VInt 1]} 3;
     LoggerProviderShutdown; TracerProviderShutdown].
Proof.
  assert (Hk : LogzAI.clashes {["user_id" := VInt 1]} = false)
    by (vm_compute; reflexivity).
  assert (H : shutdown_failures_are_Exceptions
                (library (fresh quiet_library))) by (by intros j e).
  destruct (init_info_shutdown "token" "http://localhost:4318/" DEBUG "svc"
              "default" "prod" "http" false None "hello"
              {["user_id" := VInt 1]} (fresh quiet_library)
              eq_refl Hk eq_refl H) as (_ & Hj).
  rewrite Hj. reflexivity.
Defined.

(** ** Further properties of the span operations *)

(** X10: [start_span] asks the tracer for a span and does not make it
    the ambient active span.  When the tracer accepts, the result is a
    new span object, child of the ambient active span, recording, its
    status unset, and the spans that existed are as they were; when the
    tracer raises (an unknown keyword, say) the error reaches the caller
    and no span has been created. *)
Theorem start_span_creates (w : World) (t : Tracer) (name : string)
    (kwargs : Kwargs) :
  tracer (self w) = Some t →
  let r := LogzAI.start_span name kwargs w in
  journal r.2 = (journal w ++ [TracerStartSpan name kwargs])%list
  ∧ active_span r.2 = active_span w
  ∧ self r.2 = self w
  ∧ match raises (library w) (journal w) (TracerStartSpan name kwargs) with
    | None =>
        r.1 = Ok (length (spans w))
        ∧ spans r.2
          = (spans w ++ [new_span name kwargs (active_span w)])%list
    | Some e => r.1 = Raise e ∧ spans r.2 = spans w
    end.
Proof.
  intros Ht r. subst r. unfold LogzAI.start_span. rewrite Ht.
  unfold tracer_start_span, bind, external.
  by destruct (raises (library w) (journal w) _).
Qed.

Lemma start_span_creates_witness :
  let r := LogzAI.start_span "work" ∅ (initialized quiet_library) in
  r.1 = Ok 0%nat
  ∧ spans r.2 = [new_span "work" ∅ None]
  ∧ active_span r.2 = None.
Proof.
  pose (w := initialized quiet_library).
  assert (Ht : ∃ t, tracer (self w) = Some t) by (by eexists).
  destruct Ht as [t Ht].
  destruct (start_span_creates w t "work" ∅ Ht) as (_ & Ha & _ & Hr).
  change (raises (library w) (journal w) (TracerStartSpan "work" ∅))
    with (@None PyExc) in Hr.
  destruct Hr as [Hr Hs]. intros r. subst r. fold w.
  rewrite Hr, Hs, Ha. vm_compute. done.
Defined.

Lemma entered_eq (w : World) (t : Tracer) (name : string) (kwargs : Kwargs) :
  tracer (self w) = Some t →
  raises (library w) (journal w) (TracerStartSpan name kwargs) = None →
  (sp <- LogzAI.start_span name kwargs ;; context_attach sp) w
  = (Ok (active_span w), entered name kwargs w).
Proof. intros Ht Hr. by rewrite (span_entry w t name kwargs Ht Hr). Qed.

(** [span] around a block that returns, in full. *)
Lemma span_returns {A} (w : World) (t : Tracer) (name : string)
    (kwargs : Kwargs) (block : nat → M A) (a : A) (wb : World) :
  tracer (self w) = Some t →
  raises (library w) (journal w) (TracerStartSpan name kwargs) = None →
  block (length (spans w)) (entered name kwargs w) = (Ok a, wb) →
  LogzAI.span name kwargs block w
  = (Ok a,
     mkWorld (self wb) (alter with_end (length (spans w)) (spans wb))
       (active_span w) (handling wb)
       (journal wb ++ [ContextDetach (active_span w);
                       SpanEnd (length (spans w))])%list
       (global_tracer_provider wb) (loggers wb) (library wb)).
Proof.
  intros Ht Hr Hb. unfold LogzAI.span, bind.
  rewrite (start_span_run w t name kwargs Ht Hr).
  unfold use_span, try_finally, try_except, bind, context_attach, called, bind.
  world_simpl. rewrite <- app_assoc. simpl.
  unfold entered, new_span in Hb. rewrite Hb.
  unfold context_detach, bind, called, span_end, bind, called, update_span.
  world_simpl. by rewrite <- app_assoc.
Qed.

(** X11: scoped spans nest.  With a tracer that accepts the arguments,
    [with span(n1) as a: with span(n2) as b: ...] creates two spans, the
    first a child of the span that was ambient and the second a child of
    the first; each receives exactly one [end()], the inner one first;
    the inner exit makes the outer span ambient again and the outer exit
    restores the span that was ambient before. *)
Theorem span_nesting (w : World) (t : Tracer) (n1 n2 : string)
    (k1 k2 : Kwargs) :
  tracer (self w) = Some t →
  (∀ j n k, raises (library w) j (TracerStartSpan n k) = None) →
  let s1 := length (spans w) in
  let s2 := S s1 in
  let r := LogzAI.span n1 k1
             (λ a, LogzAI.span n2 k2 (λ b, ret (a, b))) w in
  r.1 = Ok (s1, s2)
  ∧ spans r.2
    = (spans w
       ++ [closed_span (new_span n1 k1 (active_span w));
           closed_span (new_span n2 k2 (Some s1))])%list
  ∧ active_span r.2 = active_span w
  ∧ journal r.2
    = (journal w
       ++ [TracerStartSpan n1 k1; ContextAttach s1;
           TracerStartSpan n2 k2; ContextAttach s2;
           ContextDetach (Some s1); SpanEnd s2;
           ContextDetach (active_span w); SpanEnd s1])%list.
Proof.
  intros Ht Hr s1 s2 r.
  pose proof (span_returns (entered n1 k1 w) t n2 k2 (λ b, ret (s1, b))
                (s1, length (spans (entered n1 k1 w)))
                (entered n2 k2 (entered n1 k1 w)) Ht (Hr _ _ _) eq_refl)
    as Hinner.
  pose proof (span_returns w t n1 k1
                (λ a, LogzAI.span n2 k2 (λ b, ret (a, b)))
                _ _ Ht (Hr _ _ _) Hinner) as Houter.
  subst r. rewrite Houter. clear Hinner Houter.
  unfold entered. simpl. rewrite length_app. simpl.
  replace (length (spans w) + 1)%nat with s2 by (subst s2 s1; lia).
  fold s1. split; [done|]. split; [|split; [done|]].
  - rewrite <- !app_assoc. simpl.
    replace s2 with (length (spans w) + 1)%nat by (subst s2 s1; lia).
    rewrite alter_app_r. simpl.
    replace s1 with (length (spans w) + 0)%nat at 1 by (subst s1; lia).
    rewrite alter_app_r. simpl.
    by unfold closed_span, with_end, new_span.
  - by rewrite <- !app_assoc.
Qed.

Lemma span_nesting_witness :
  let r := LogzAI.span "outer" ∅
             (λ a, LogzAI.span "inner" ∅ (λ b, ret (a, b)))
             (initialized quiet_library) in
  r.1 = Ok (0%nat, 1%nat)
  ∧ (span_parent <$> spans r.2) = [None; Some 0%nat]
  ∧ (span_end_calls <$> spans r.2) = [1%nat; 1%nat]
  ∧ active_span r.2 = None.
Proof.
  pose (w := initialized quiet_library).
  assert (Ht : ∃ t, tracer (self w) = Some t) by (by eexists).
  destruct Ht as [t Ht].
  destruct (span_nesting w t "outer" "inner" ∅ ∅ Ht (λ _ _ _, eq_refl))
    as (H1 & H2 & H3 & _).
  intros r. subst r. fold w. rewrite H1, H2, H3. vm_compute. done.
Defined.

(** X12: when the tracer refuses to start the span, [span] raises the
    tracer's error before the block is entered: the block is not run, no
    span exists, none is activated, ended or given a status, and the one
    call made is the refused [start_span]. *)
Theorem span_not_entered {A} (w : World) (t : Tracer) (name : string)
    (kwargs : Kwargs) (block : nat → M A) (e : PyExc) :
  tracer (self w) = Some t →
  raises (library w) (journal w) (TracerStartSpan name kwargs) = Some e →
  LogzAI.span name kwargs block w
  = (Raise e, with_journal (λ j, (j ++ [TracerStartSpan name kwargs])%list) w).
Proof.
  intros Ht Hr. unfold LogzAI.span, bind, LogzAI.start_span. rewrite Ht.
  unfold tracer_start_span, bind, external. by rewrite Hr.
Qed.

Lemma span_not_entered_witness :
  let r := LogzAI.span "work" {["user_id" := VInt 1]}
             (λ sp, LogzAI.set_span_attribute sp "k" (VInt 2))
             (initialized rejecting_library) in
  r.1 = Raise (LogzAI.TypeError "unexpected keyword argument")
  ∧ spans r.2 = []
  ∧ journal r.2 = [TracerStartSpan "work" {["user_id" := VInt 1]}].
Proof.
  pose (w := initialized rejecting_library).
  assert (Ht : ∃ t, tracer (self w) = Some t) by (by eexists).
  destruct Ht as [t Ht].
  intros r. subst r. fold w.
  rewrite (span_not_entered w t "work" {["user_id" := VInt 1]} _
             (LogzAI.TypeError "unexpected keyword argument") Ht eq_refl).
  vm_compute. done.
Defined.

(** X13: [set_span_attribute] never raises and touches one span at most.
    With an empty key it changes no span.  On a span that is still open,
    and holds fewer attributes than the limit, an attribute with a key
    that is not empty and a value that is not [None] reads back as the
    value set, the other attributes, the status and the end count are as
    they were; on a span that has ended nothing changes; and every other
    span is left as it is. *)
Theorem set_span_attribute_effect (w : World) (sp : nat) (key : string)
    (value : PyVal) :
  let r := LogzAI.set_span_attribute sp key value w in
  r.1 = Ok tt
  ∧ journal r.2 = (journal w ++ [SpanSetAttribute sp key value])%list
  ∧ active_span r.2 = active_span w
  ∧ length (spans r.2) = length (spans w)
  ∧ (∀ i, i ≠ sp → spans r.2 !! i = spans w !! i)
  ∧ (key = EmptyString → spans r.2 = spans w)
  ∧ match spans w !! sp with
    | None => spans r.2 = spans w
    | Some d =>
        if span_ended d then spans r.2 !! sp = Some d
        else
          key ≠ EmptyString →
          value ≠ VNone →
          (size (span_attributes d) < attribute_count_limit)%nat →
          ∃ d',
            spans r.2 !! sp = Some d'
            ∧ span_attributes d' !! key = Some value
            ∧ (∀ k, k ≠ key →
                 span_attributes d' !! k = span_attributes d !! k)
            ∧ span_status d' = span_status d
            ∧ span_end_calls d' = span_end_calls d
            ∧ span_name d' = span_name d
            ∧ span_parent d' = span_parent d
    end.
Proof.
  intros r. subst r.
  unfold LogzAI.set_span_attribute, span_set_attribute, bind, called,
    update_span. world_simpl.
  split; [done|]. split; [done|]. split; [done|].
  split; [by rewrite length_alter|].
  split; [by intros i Hi; rewrite list_lookup_alter_ne|].
  split.
  { intros ->. apply list_eq. intros i.
    destruct (decide (i = sp)) as [->|Hi].
    - rewrite list_lookup_alter_eq. destruct (spans w !! sp) as [d|]; [|done].
      simpl. unfold invalid_attribute.
      rewrite bool_decide_eq_true_2 by done. simpl.
      by rewrite orb_true_r.
    - by rewrite list_lookup_alter_ne. }
  destruct (spans w !! sp) as [d|] eqn:Hd.
  - rewrite list_lookup_alter_eq, Hd. simpl.
    destruct (span_ended d); [done|].
    intros Hkey Hvalue _. unfold invalid_attribute.
    rewrite bool_decide_eq_false_2 by done. simpl.
    destruct value; [done|..];
      (eexists; split; [reflexivity|]; simpl;
       split; [by rewrite lookup_insert_eq|];
       split; [by intros k Hk; rewrite lookup_insert_ne|done]).
  - apply list_eq. intros i. destruct (decide (i = sp)) as [->|Hi].
    + by rewrite list_lookup_alter_eq, Hd.
    + by rewrite list_lookup_alter_ne.
Qed.

(** X14: the [exc_info] argument has no effect.  [log] behaves the same
    for every value of it, result and state alike, because the exception
    fields depend on the exception being handled alone; so [exception] is
    [error] whatever [exc_info] the latter is given, and [warn] is
    [warning]. *)
Theorem exc_info_has_no_effect (level : Z) (message : string)
    (stacklevel : option Z) (exc_info exc_info' : option bool)
    (kwargs : Kwargs) (w : World) :
  LogzAI.log level message stacklevel exc_info kwargs w
  = LogzAI.log level message stacklevel exc_info' kwargs w
  ∧ LogzAI.error message exc_info kwargs w = LogzAI.exception message kwargs w
  ∧ LogzAI.info message exc_info kwargs w
    = LogzAI.info message exc_info' kwargs w
  ∧ LogzAI.warn message exc_info kwargs w
    = LogzAI.warning message exc_info' kwargs w.
Proof.
  assert (H : ∀ l s e e',
            LogzAI.log l message s e kwargs w
            = LogzAI.log l message s e' kwargs w).
  { intros l s e e'. unfold LogzAI.log.
    destruct (logger (self w)); [|done].
    destruct (handling w) as [x|] eqn:Hh.
    - rewrite bool_decide_eq_true_2 by done. by rewrite !orb_true_r.
    - by destruct (default false e), (default false e'). }
  split; [apply H|].
  unfold LogzAI.error, LogzAI.exception, LogzAI.info, LogzAI.warn,
    LogzAI.warning, LogzAI.call_log.
  destruct (LogzAI.clashes kwargs); [done|].
  split; [apply H|]. split; apply H.
Qed.

(** X15: attributes are to be set while the span is open.  An attribute
    (its key not empty, its value not [None]) set through
    [set_span_attribute] inside the block of [span] is on the span when
    the block has returned and the span has been ended; the same call
    made after the block changes nothing, the span having ended. *)
Theorem attribute_set_in_block (w : World) (t : Tracer) (name : string)
    (kwargs : Kwargs) (key : string) (value value' : PyVal) :
  tracer (self w) = Some t →
  raises (library w) (journal w) (TracerStartSpan name kwargs) = None →
  key ≠ EmptyString →
  value ≠ VNone →
  let r := LogzAI.span name kwargs
             (λ s, LogzAI.set_span_attribute s key value ;; ret s) w in
  let r' := LogzAI.set_span_attribute (length (spans w)) key value' r.2 in
  r.1 = Ok (length (spans w))
  ∧ spans r.2
    = (spans w
       ++ [closed_span
             (with_attribute (new_span name kwargs (active_span w))
                key value)])%list
  ∧ r'.1 = Ok tt
  ∧ spans r'.2 = spans r.2.
Proof.
  intros Ht Hr Hkey Hvalue r r'.
  assert (Hvalid : invalid_attribute key value = false).
  { unfold invalid_attribute. rewrite bool_decide_eq_false_2 by done.
    by destruct value. }
  assert (Hrun : r = (Ok (length (spans w)),
            mkWorld (self w)
              (spans w
               ++ [closed_span
                     (with_attribute (new_span name kwargs (active_span w))
                        key value)])%list
              (active_span w) (handling w)
              (journal w
               ++ [TracerStartSpan name kwargs;
                   ContextAttach (length (spans w));
                   SpanSetAttribute (length (spans w)) key value;
                   ContextDetach (active_span w);
                   SpanEnd (length (spans w))])%list
              (global_tracer_provider w) (loggers w) (library w))).
  { subst r.
    erewrite (span_returns w t name kwargs _ (length (spans w)));
      [|exact Ht|exact Hr|reflexivity].
    f_equal. unfold LogzAI.set_span_attribute, span_set_attribute, bind,
      called, update_span, ret, entered. world_simpl.
    f_equal.
    - replace (length (spans w)) with (length (spans w) + 0)%nat at 1 2
        by lia.
      rewrite !alter_app_r. simpl. by rewrite Hvalid.
    - by rewrite <- !app_assoc. }
  subst r'. rewrite Hrun. simpl. split; [done|]. split; [done|].
  split; [done|].
  unfold LogzAI.set_span_attribute, span_set_attribute, bind, called,
    update_span. world_simpl.
  replace (length (spans w)) with (length (spans w) + 0)%nat at 1 by lia.
  by rewrite alter_app_r.
Qed.

Lemma attribute_set_in_block_witness :
  let r := LogzAI.span "work" ∅
             (λ s, LogzAI.set_span_attribute s "user_id" (VInt 1) ;; ret s)
             (initialized quiet_library) in
  (span_attributes <$> spans r.2) = [{["user_id" := VInt 1]}]
  ∧ spans (LogzAI.set_span_attribute 0 "user_id" (VInt 2) r.2).2 = spans r.2.
Proof.
  pose (w := initialized quiet_library).
  assert (Ht : ∃ t, tracer (self w) = Some t) by (by eexists).
  destruct Ht as [t Ht].
  assert (Hkey : "user_id" ≠ EmptyString) by discriminate.
  assert (Hvalue : VInt 1 ≠ VNone) by discriminate.
  destruct (attribute_set_in_block w t "work" ∅ "user_id" (VInt 1) (VInt 2)
              Ht eq_refl Hkey Hvalue) as (_ & H2 & _ & H4).
  intros r. subst r. fold w.
  split; [|exact H4]. rewrite H2. vm_compute. reflexivity.
Defined.
